(** * REM-MetaData: the metadata remover of [main.py]

  A shallow embedding of [main.py] (the per-file sanitizer
  [remove_all_metadata], the name generator [random_string] and the
  dispatcher [process_folder]) together with the properties its
  specification states about them.

  The program is a sequence of calls into the Python standard library,
  Pillow and piexif.  Those calls are the program's environment: their
  results are taken from a record [Env] of oracles, every call is recorded
  in the program state, and a call either returns a value or raises an
  exception object.  The control flow between the calls ([try]/[except],
  [with], the [for] loop, early [return]) is the part that is translated
  from the source. *)

From Stdlib Require Import List String Ascii ZArith Lia Bool Arith.
From Stdlib Require Import DecimalString Permutation.
Import ListNotations.

Local Open Scope list_scope.
Local Open Scope string_scope.

(** ** Python values used by the program *)

Module Py.

(** Classes of the exception objects the library calls of [main.py] raise.
    Every one of them derives from [Exception]; the asynchronous
    [BaseException]s of the interpreter ([KeyboardInterrupt], [SystemExit])
    are not results of a call and are outside this model. *)
Inductive ExcClass : Type :=
| CalledProcessError      (* subprocess.CalledProcessError *)
| FileNotFoundError
| PermissionError
| OSError
| ValueError
| IndexError
| MemoryError
| NotImplementedError
| UnidentifiedImageError  (* PIL.UnidentifiedImageError *)
| OtherException (name : string).

(** An exception object: its class and the text [str(e)] gives. *)
Record Exc : Type := mkExc { exc_class : ExcClass; exc_str : string }.

(** The result of evaluating a call: a value, or a raised exception. *)
Inductive Outcome (A : Type) : Type :=
| Ret (a : A)
| Raise (e : Exc).
Arguments Ret {A} a.
Arguments Raise {A} e.

(** [except Exception]: every modelled class derives from [Exception]. *)
Definition except_Exception (e : Exc) : bool := true.

(** [except subprocess.CalledProcessError] *)
Definition except_CalledProcessError (e : Exc) : bool :=
  match exc_class e with
  | CalledProcessError => true
  | _ => false
  end.

(** Truth value of [None] or a [str]: [None] and [''] are false. *)
Definition truthy (v : option string) : bool :=
  match v with
  | None => false
  | Some EmptyString => false
  | Some (String _ _) => true
  end.

(** [str(v)] of [None] or a [str], as an f-string field formats it. *)
Definition format_opt (v : option string) : string :=
  match v with
  | None => "None"
  | Some s => s
  end.

(** [str(n)] of a non-negative [int]. *)
Definition format_nat (n : nat) : string :=
  NilEmpty.string_of_uint (Nat.to_uint n).

(** [x in xs] for a list of strings. *)
Fixpoint str_in (x : string) (xs : list string) : bool :=
  match xs with
  | [] => false
  | y :: ys => String.eqb x y || str_in x ys
  end.

(** [s.rfind(c)]: index of the last occurrence of [c], [-1] if none. *)
Fixpoint rfind_from (c : ascii) (s : string) (i last : Z) : Z :=
  match s with
  | EmptyString => last
  | String a r => rfind_from c r (i + 1) (if Ascii.eqb a c then i else last)
  end.
Definition rfind (c : ascii) (s : string) : Z := rfind_from c s 0 (-1).

(** [s[i:]] *)
Definition slice_from (i : nat) (s : string) : string :=
  substring i (String.length s - i) s.

(** [s.endswith(c)] for a one-character [c]. *)
Fixpoint endswith (c : ascii) (s : string) : bool :=
  match s with
  | EmptyString => false
  | String a EmptyString => Ascii.eqb a c
  | String _ r => endswith c r
  end.

(** [s.startswith(c)] for a one-character [c]. *)
Definition startswith (c : ascii) (s : string) : bool :=
  match s with
  | EmptyString => false
  | String a _ => Ascii.eqb a c
  end.

(** [string.ascii_letters] and [string.digits] *)
Definition ascii_lowercase : string := "abcdefghijklmnopqrstuvwxyz".
Definition ascii_uppercase : string := "ABCDEFGHIJKLMNOPQRSTUVWXYZ".
Definition ascii_letters : string := ascii_lowercase ++ ascii_uppercase.
Definition digits : string := "0123456789".

(** [''.join(cs)] for a list of one-character strings. *)
Definition join_chars (cs : list ascii) : string := string_of_list_ascii cs.

End Py.
Import Py.

(** ** [posixpath]: the [os.path] of a POSIX host *)

Module posixpath.

Definition sep : ascii := "/"%char.

(** [i = p.rfind(sep) + 1; return p[i:]] *)
Definition basename (p : string) : string :=
  let i := (rfind sep p + 1)%Z in
  slice_from (Z.to_nat i) p.

(** [join(a, b)] with one component [b]. *)
Definition join (a b : string) : string :=
  if startswith sep b then b
  else if (String.eqb a EmptyString || endswith sep a)%bool then a ++ b
  else a ++ String sep b.

End posixpath.

(** ** Images, as far as the program looks at them *)

(** A pixel value of [getdata()]: one number per band. *)
Definition Pixel : Type := list Z.

(** An in-memory [PIL.Image.Image]: mode, size, pixel buffer and the [info]
    dictionary that carries the metadata a decoder found. *)
Record Image : Type := mkImage {
  mode : string;
  size : nat * nat;
  im_data : list Pixel;
  info : list (string * string)
}.

(** The object [Image.open] returns: the header has been read, the pixel data
    is decoded lazily by the first access, which may fail. *)
Record ImageFile : Type := mkImageFile {
  header : Image;
  load : Outcome (list Pixel)
}.

(** ** The environment: results of the library calls *)

Record Env : Type := mkEnv {
  os_name : string;
  os_path_basename : string -> string;
  os_path_join : string -> string -> string;
  os_path_isfile : string -> bool;
  os_makedirs : string -> Outcome unit;
  os_listdir : string -> Outcome (list string);
  os_utime : string -> Z * Z -> Outcome unit;
  cpu_count : nat;
  (* the i-th value drawn from the generator of [random], as the integer k
     of the result k / 2^53 of [random.random()] *)
  random_source : nat -> Z;
  imghdr_what : string -> Outcome (option string);
  Image_open : string -> Outcome ImageFile;
  (* [Image.new(mode, size)]: the zero-filled buffer, or the error *)
  Image_new : string -> nat * nat -> Outcome (list Pixel);
  Image_putdata : Image -> list Pixel -> Outcome unit;
  (* [img.save(path, optimize=True, compress_level=9)] *)
  Image_save : Image -> string -> Outcome unit;
  piexif_remove : string -> Outcome unit;
  (* [subprocess.run(args, check=True, capture_output=True)] *)
  subprocess_run : list string -> Outcome unit
}.

(** ** Program state and the monad of the embedding *)

(** The library calls the program makes, in the order it makes them. *)
Inductive Call : Type :=
| call_imghdr_what (path : string)
| call_Image_open (path : string)
| call_Image_getdata (path : string)
| call_Image_new (mode : string) (size : nat * nat)
| call_Image_putdata (data : list Pixel)
| call_Image_save (img : Image) (path : string)
| call_Image_close (path : string)
| call_piexif_remove (path : string)
| call_subprocess_run (args : list string)
| call_os_utime (path : string) (times : Z * Z)
| call_os_makedirs (path : string)
| call_os_listdir (path : string)
| call_os_path_isfile (path : string)
| call_cpu_count
| call_Pool (processes : nat)
| call_Pool_terminate.

Record State : Type := mkState {
  rng_pos : nat;            (* values drawn from [random] so far *)
  calls : list Call;        (* library calls made so far, oldest first *)
  stdout : list string      (* arguments of [print] so far, oldest first *)
}.

Definition initial_state : State := mkState 0 [] [].

Definition M (A : Type) : Type := State -> Outcome A * State.

Definition ret {A : Type} (a : A) : M A := fun st => (Ret a, st).

Definition raise {A : Type} (e : Exc) : M A := fun st => (Raise e, st).

Definition bind {A B : Type} (m : M A) (f : A -> M B) : M B :=
  fun st =>
    match m st with
    | (Ret a, st') => f a st'
    | (Raise e, st') => (Raise e, st')
    end.

Declare Scope py_scope.
Delimit Scope py_scope with py.
Notation "x <- m ;; k" := (bind m (fun x => k))
  (at level 61, m at next level, right associativity) : py_scope.
Notation "m ;;; k" := (bind m (fun _ => k))
  (at level 61, right associativity) : py_scope.
Local Open Scope py_scope.

(** [try: body except C: handler], [catches] deciding [isinstance(e, C)]. *)
Definition try_except {A : Type} (body : M A) (catches : Exc -> bool)
    (handler : Exc -> M A) : M A :=
  fun st =>
    match body st with
    | (Ret a, st') => (Ret a, st')
    | (Raise e, st') => if catches e then handler e st' else (Raise e, st')
    end.

(** [with enter as r: body]: [exit] runs however the body ends, and the
    exception of the body propagates afterwards. *)
Definition with_ {R A : Type} (enter : M R) (exit : R -> M unit)
    (body : R -> M A) : M A :=
  r <- enter ;;
  fun st =>
    match body r st with
    | (Ret a, st') => (exit r ;;; ret a) st'
    | (Raise e, st') => (exit r ;;; raise e) st'
    end.

(** A library call: recorded, then its result taken from the environment. *)
Definition call {A : Type} (c : Call) (result : Outcome A) : M A :=
  fun st => (result, mkState (rng_pos st) (calls st ++ [c])%list (stdout st)).

Definition print (line : string) : M unit :=
  fun st => (Ret tt, mkState (rng_pos st) (calls st) (stdout st ++ [line])%list).

(** [pass] *)
Definition pass : M unit := ret tt.

(** [[f(x) for x in xs]], and [pool.map(f, xs)]: the results in the order of
    [xs].  The workers' calls are recorded in that order too. *)
Fixpoint map_M {A B : Type} (f : A -> M B) (xs : list A) : M (list B) :=
  match xs with
  | [] => ret []
  | x :: rest => y <- f x ;; ys <- map_M f rest ;; ret (y :: ys)
  end.

(** ** [random_string] *)

(** [random.random()]: the next value of the generator, k / 2^53 with
    0 <= k < 2^53, represented by k. *)
Definition random_random (env : Env) : M Z :=
  fun st =>
    (Ret (random_source env (rng_pos st) mod 2 ^ 53)%Z,
     mkState (S (rng_pos st)) (calls st) (stdout st)).

(** The binary64 value nearest to p / 2^53, ties to even, as its numerator
    over 2^53: a double keeps 53 significant bits, so a [p] of more bits is
    rounded to a multiple of 2^e, e being the number of bits beyond 53. *)
Definition binary64_round (p : Z) : Z :=
  let e := Z.max 0 (Z.log2 p - 52) in
  let q := (p / 2 ^ e)%Z in
  let r := (p mod 2 ^ e)%Z in
  if ((2 ^ e <? 2 * r)%Z || ((2 * r =? 2 ^ e)%Z && Z.odd q))%bool
  then ((q + 1) * 2 ^ e)%Z
  else (q * 2 ^ e)%Z.

(** [floor(random() * n)], the index [random.choices] selects: [random()] is
    k / 2^53 and [n] is a double, and their product is rounded to a double
    before the floor. *)
Definition choice_index (k : Z) (n : nat) : nat :=
  Z.to_nat (binary64_round (k * Z.of_nat n) / 2 ^ 53).

(** [population[i]] on a [str] *)
Definition str_index (population : string) (i : nat) : M ascii :=
  match String.get i population with
  | Some c => ret c
  | None => raise (mkExc IndexError "string index out of range")
  end.

(** [random.choices(population, k=k)] without weights:
    [[population[floor(random() * n)] for i in repeat(None, k)]] *)
Fixpoint random_choices (env : Env) (population : string) (k : nat)
    : M (list ascii) :=
  match k with
  | O => ret []
  | S k' =>
      r <- random_random env ;;
      c <- str_index population (choice_index r (String.length population)) ;;
      cs <- random_choices env population k' ;;
      ret (c :: cs)
  end.

Definition random_string (env : Env) (length : nat) : M string :=
  cs <- random_choices env (ascii_letters ++ digits) length ;;
  ret (join_chars cs).

(** ** [remove_all_metadata] *)

(** An element of [image_files]: [(input_path, output_folder)]. *)
Definition Task : Type := (string * string)%type.

(** The returned tuple [(success, input_filename, error_message)]. *)
Definition TaskResult : Type := (bool * string * option string)%type.

Definition success (r : TaskResult) : bool := fst (fst r).
Definition input_filename (r : TaskResult) : string := snd (fst r).
Definition error_message (r : TaskResult) : option string := snd r.

Definition unsupported_message : string := "Unsupported or invalid image file".

(** [f"{random_string()}.{image_type}"] *)
Definition output_filename (env : Env) (image_type : option string) : M string :=
  name <- random_string env 20 ;;
  ret (name ++ "." ++ format_opt image_type).

(** Lines 35-42: the [with Image.open(input_path) as img] block. *)
Definition copy_pixels (env : Env) (input_path output_path : string) : M unit :=
  with_ (call (call_Image_open input_path) (Image_open env input_path))
        (fun _ => call (call_Image_close input_path) (Ret tt))
        (fun img =>
           data <- call (call_Image_getdata input_path) (load img) ;;
           buffer <- call (call_Image_new (mode (header img)) (size (header img)))
                          (Image_new env (mode (header img)) (size (header img))) ;;
           let img_without_metadata :=
             mkImage (mode (header img)) (size (header img)) buffer [] in
           call (call_Image_putdata data)
                (Image_putdata env img_without_metadata data) ;;;
           let img_without_metadata :=
             mkImage (mode img_without_metadata) (size img_without_metadata)
                     data (info img_without_metadata) in
           call (call_Image_save img_without_metadata output_path)
                (Image_save env img_without_metadata output_path)).

(** Lines 44-63: the three clean-up steps on the written file. *)
Definition scrub_file (env : Env) (image_type : option string)
    (output_path : string) : M unit :=
  (if str_in (format_opt image_type) ["jpg"; "jpeg"]
   then try_except
          (call (call_piexif_remove output_path) (piexif_remove env output_path))
          except_Exception (fun _ => pass)
   else pass) ;;;
  (if String.eqb (os_name env) "posix"
   then try_except
          (call (call_subprocess_run ["xattr"; "-c"; output_path])
                (subprocess_run env ["xattr"; "-c"; output_path]))
          except_CalledProcessError (fun _ => pass)
   else pass) ;;;
  try_except
    (call (call_os_utime output_path (0, 0)%Z) (os_utime env output_path (0, 0)%Z))
    except_Exception (fun _ => pass).

(** Lines 25-65: the body of the outer [try]. *)
Definition remove_all_metadata_try (env : Env) (input_path output_folder : string)
    : M TaskResult :=
  image_type <- call (call_imghdr_what input_path) (imghdr_what env input_path) ;;
  if negb (truthy image_type)
  then ret (false, os_path_basename env input_path, Some unsupported_message)
  else
    output_filename <- output_filename env image_type ;;
    let output_path := os_path_join env output_folder output_filename in
    copy_pixels env input_path output_path ;;;
    scrub_file env image_type output_path ;;;
    ret (true, os_path_basename env input_path, None).

Definition remove_all_metadata (env : Env) (input_tuple : Task) : M TaskResult :=
  let '(input_path, output_folder) := input_tuple in
  try_except
    (remove_all_metadata_try env input_path output_folder)
    except_Exception
    (fun e => ret (false, os_path_basename env input_path, Some (exc_str e))).

(** ** [process_folder] *)

(** Lines 77-90: the [for filename in os.listdir(input_folder)] loop, with
    [image_files] as built so far. *)
Fixpoint collect_image_files (env : Env) (input_folder output_folder : string)
    (filenames : list string) (image_files : list Task) : M (list Task) :=
  match filenames with
  | [] => ret image_files
  | filename :: rest =>
      let input_path := os_path_join env input_folder filename in
      is_file <- call (call_os_path_isfile input_path)
                      (Ret (os_path_isfile env input_path)) ;;
      if negb is_file
      then collect_image_files env input_folder output_folder rest image_files
      else
        image_files <-
          try_except
            (image_type <- call (call_imghdr_what input_path)
                                (imghdr_what env input_path) ;;
             if truthy image_type
             then ret (image_files ++ [(input_path, output_folder)])%list
             else ret image_files)
            except_Exception
            (fun _ => ret image_files) ;;
        collect_image_files env input_folder output_folder rest image_files
  end.

(** [Pool(processes=n)]: refuses a pool without workers. *)
Definition Pool (processes : nat) : M nat :=
  call (call_Pool processes)
       (if (processes <? 1)%nat
        then Raise (mkExc ValueError "Number of processes must be at least 1")
        else Ret processes).

Definition newline : string := String (ascii_of_nat 10) EmptyString.

(** Lines 100-112: the summary printed from [results]. *)
Definition print_summary (results : list TaskResult) : M unit :=
  let successful := filter (fun r => success r) results in
  let failed := filter (fun r => negb (success r)) results in
  print (newline ++ "Processing Summary:") ;;;
  print ("Total images processed: " ++ format_nat (List.length results)) ;;;
  print ("Successful: " ++ format_nat (List.length successful)) ;;;
  print ("Failed: " ++ format_nat (List.length failed)) ;;;
  match failed with
  | [] => pass
  | _ :: _ =>
      print (newline ++ "Failed Files:") ;;;
      map_M (fun r : TaskResult =>
               let '(_, filename, error) := r in
               print ("- " ++ filename ++ ": " ++ format_opt error))
            failed ;;;
      pass
  end.

Definition process_folder (env : Env) (input_folder output_folder : string)
    : M unit :=
  call (call_os_makedirs output_folder) (os_makedirs env output_folder) ;;;
  filenames <- call (call_os_listdir input_folder) (os_listdir env input_folder) ;;
  image_files <- collect_image_files env input_folder output_folder filenames [] ;;
  cpus <- call call_cpu_count (Ret (cpu_count env)) ;;
  let num_processes := Nat.min cpus (List.length image_files) in
  results <- with_ (Pool num_processes)
                   (fun _ => call call_Pool_terminate (Ret tt))
                   (fun pool => map_M (remove_all_metadata env) image_files) ;;
  print_summary results.

(** [main] *)
Definition main (env : Env) : M unit :=
  let input_folder := "input" in
  let output_folder := "output" in
  print ("Starting comprehensive metadata removal from: " ++ input_folder) ;;;
  process_folder env input_folder output_folder ;;;
  print ("Completed. Cleaned images saved to: " ++ output_folder).

(** ** [imghdr]: the default classification by content

    [imghdr.what(path)] is an oracle of [Env].  This module is the behaviour
    of the standard library's function on the first 32 bytes of a file, with
    its default list of tests; the example environments below are built from
    file contents with it. *)

Module imghdr.

Definition bytes : Type := list Byte.byte.

Definition lit (s : string) : bytes := list_byte_of_string s.

Fixpoint bytes_eqb (a b : bytes) : bool :=
  match a, b with
  | [], [] => true
  | x :: a', y :: b' => Byte.eqb x y && bytes_eqb a' b'
  | _, _ => false
  end.

(** [h.startswith(prefix)] *)
Fixpoint startswith (prefix h : bytes) : bool :=
  match prefix, h with
  | [], _ => true
  | x :: prefix', y :: h' => Byte.eqb x y && startswith prefix' h'
  | _ :: _, [] => false
  end.

(** [h[i:j]] *)
Definition slice (i j : nat) (h : bytes) : bytes := firstn (j - i) (skipn i h).

(** [b in (x, y, ...)] *)
Definition mem (b : bytes) (xs : list bytes) : bool := existsb (bytes_eqb b) xs.

Definition test_jpeg (h : bytes) : option string :=
  if mem (slice 6 10 h) [lit "JFIF"; lit "Exif"] then Some "jpeg"
  else if bytes_eqb (slice 0 4 h) [Byte.xff; Byte.xd8; Byte.xff; Byte.xdb]
       then Some "jpeg"
       else None.

Definition test_png (h : bytes) : option string :=
  if startswith [Byte.x89; Byte.x50; Byte.x4e; Byte.x47;
                 Byte.x0d; Byte.x0a; Byte.x1a; Byte.x0a] h
  then Some "png" else None.

Definition test_gif (h : bytes) : option string :=
  if mem (slice 0 6 h) [lit "GIF87a"; lit "GIF89a"] then Some "gif" else None.

Definition test_tiff (h : bytes) : option string :=
  if mem (slice 0 2 h) [lit "MM"; lit "II"] then Some "tiff" else None.

Definition test_rgb (h : bytes) : option string :=
  if startswith [Byte.x01; Byte.xda] h then Some "rgb" else None.

(** The three portable-anymap tests: ['P'], a digit of [kinds], white space. *)
Definition test_pnm (kinds : bytes) (name : string) (h : bytes) : option string :=
  match h with
  | p :: k :: w :: _ =>
      if Byte.eqb p Byte.x50
         && existsb (Byte.eqb k) kinds
         && existsb (Byte.eqb w) [Byte.x20; Byte.x09; Byte.x0a; Byte.x0d]
      then Some name else None
  | _ => None
  end.

Definition test_pbm : bytes -> option string := test_pnm (lit "14") "pbm".
Definition test_pgm : bytes -> option string := test_pnm (lit "25") "pgm".
Definition test_ppm : bytes -> option string := test_pnm (lit "36") "ppm".

Definition test_rast (h : bytes) : option string :=
  if startswith [Byte.x59; Byte.xa6; Byte.x6a; Byte.x95] h
  then Some "rast" else None.

Definition test_xbm (h : bytes) : option string :=
  if startswith (lit "#define ") h then Some "xbm" else None.

Definition test_bmp (h : bytes) : option string :=
  if startswith (lit "BM") h then Some "bmp" else None.

Definition test_webp (h : bytes) : option string :=
  if startswith (lit "RIFF") h && bytes_eqb (slice 8 12 h) (lit "WEBP")
  then Some "webp" else None.

Definition test_exr (h : bytes) : option string :=
  if startswith [Byte.x76; Byte.x2f; Byte.x31; Byte.x01] h
  then Some "exr" else None.

Definition tests : list (bytes -> option string) :=
  [test_jpeg; test_png; test_gif; test_tiff; test_rgb; test_pbm; test_pgm;
   test_ppm; test_rast; test_xbm; test_bmp; test_webp; test_exr].

(** [for tf in tests: res = tf(h, f); if res: return res] and [return None] *)
Fixpoint first_match (tfs : list (bytes -> option string)) (h : bytes)
    : option string :=
  match tfs with
  | [] => None
  | tf :: rest =>
      let res := tf h in
      if truthy res then res else first_match rest h
  end.

(** [what(path)] given what opening and reading the file gives. *)
Definition what (content : Outcome bytes) : Outcome (option string) :=
  match content with
  | Ret b => Ret (first_match tests (firstn 32 b))
  | Raise e => Raise e
  end.

End imghdr.

(** ** Example environments *)

Module Demo.

(** Contents of the regular files below [input/]. *)
Definition png_file : imghdr.bytes :=
  [Byte.x89; Byte.x50; Byte.x4e; Byte.x47; Byte.x0d; Byte.x0a; Byte.x1a;
   Byte.x0a; Byte.x00; Byte.x00; Byte.x00; Byte.x0d].

Definition jpeg_file : imghdr.bytes :=
  ([Byte.xff; Byte.xd8; Byte.xff; Byte.xe0; Byte.x00; Byte.x10]
     ++ imghdr.lit "JFIF" ++ [Byte.x00])%list.

Definition files : list (string * imghdr.bytes) :=
  [("input/cat.png", png_file);
   ("input/dog.jpg", jpeg_file);
   ("input/empty.bin", []);
   ("input/notes.txt", imghdr.lit "hello")].

Fixpoint lookup (path : string) (fs : list (string * imghdr.bytes))
    : option imghdr.bytes :=
  match fs with
  | [] => None
  | (p, b) :: rest => if String.eqb p path then Some b else lookup path rest
  end.

(** [open(path, 'rb').read()]: [input/sub] is a directory, [input/locked.png]
    is not readable. *)
Definition read (path : string) : Outcome imghdr.bytes :=
  match lookup path files with
  | Some b => Ret b
  | None =>
      if String.eqb path "input/sub"
      then Raise (mkExc (OtherException "IsADirectoryError")
                        "[Errno 21] Is a directory: 'input/sub'")
      else if String.eqb path "input/locked.png"
      then Raise (mkExc PermissionError
                        "[Errno 13] Permission denied: 'input/locked.png'")
      else Raise (mkExc FileNotFoundError
                        ("[Errno 2] No such file or directory: '" ++ path ++ "'"))
  end.

Definition picture : ImageFile :=
  mkImageFile (mkImage "RGB" (2, 1) [] [("exif", "GPS 48.85N 2.35E")])
              (Ret [[255; 0; 0]; [0; 0; 255]]%Z).

(** A POSIX host with four processors.  [listing] is what [os.listdir]
    returns for [input]; [xattr] and [save] are the results of running the
    [xattr] utility and of [Image.save]. *)
Definition env (listing : list string) (xattr save : Outcome unit) : Env :=
  {| os_name := "posix";
     os_path_basename := posixpath.basename;
     os_path_join := posixpath.join;
     os_path_isfile := fun p => negb (String.eqb p "input/sub");
     os_makedirs := fun _ => Ret tt;
     os_listdir := fun p =>
       if String.eqb p "input" then Ret listing
       else Raise (mkExc FileNotFoundError
                         ("[Errno 2] No such file or directory: '" ++ p ++ "'"));
     os_utime := fun _ _ => Ret tt;
     cpu_count := 4;
     random_source := fun i => (Z.of_nat i * 1234567890123457 + 987654321)%Z;
     imghdr_what := fun p => imghdr.what (read p);
     Image_open := fun p =>
       match imghdr.what (read p) with
       | Ret (Some _) => Ret picture
       | Ret None =>
           Raise (mkExc UnidentifiedImageError
                        ("cannot identify image file '" ++ p ++ "'"))
       | Raise e => Raise e
       end;
     Image_new := fun _ sz => Ret (repeat [0; 0; 0]%Z (fst sz * snd sz));
     Image_putdata := fun _ _ => Ret tt;
     Image_save := fun _ _ => save;
     piexif_remove := fun _ => Ret tt;
     subprocess_run := fun _ => xattr |}.

Definition listing : list string :=
  ["cat.png"; "sub"; "notes.txt"; "dog.jpg"; "locked.png"; "empty.bin"].

(** Everything works. *)
Definition healthy : Env := env listing (Ret tt) (Ret tt).

(** The [xattr] utility is not installed. *)
Definition without_xattr : Env :=
  env listing
      (Raise (mkExc FileNotFoundError
                    "[Errno 2] No such file or directory: 'xattr'"))
      (Ret tt).

(** The encoder runs out of memory: [MemoryError()] has no message. *)
Definition out_of_memory : Env :=
  env listing (Ret tt) (Raise (mkExc MemoryError EmptyString)).

(** The input directory is empty. *)
Definition empty_folder : Env := env [] (Ret tt) (Ret tt).

End Demo.

(** ** Vocabulary of the properties *)

(** ASCII letters and digits, by character code. *)
Definition is_alnum (c : ascii) : bool :=
  let n := nat_of_ascii c in
  ((48 <=? n) && (n <=? 57) || (65 <=? n) && (n <=? 90)
   || (97 <=? n) && (n <=? 122))%nat.

(** The calls of the enumeration loop. *)
Definition is_probe (c : Call) : bool :=
  match c with
  | call_os_path_isfile _ | call_imghdr_what _ => true
  | _ => false
  end.

Definition is_classification (c : Call) : bool :=
  match c with
  | call_imghdr_what _ => true
  | _ => false
  end.

(** The calls [remove_all_metadata] makes once the input is classified. *)
Definition is_image_step (c : Call) : bool :=
  match c with
  | call_Image_open _ | call_Image_getdata _ | call_Image_new _ _
  | call_Image_putdata _ | call_Image_save _ _ | call_Image_close _
  | call_piexif_remove _ | call_subprocess_run _ | call_os_utime _ _ => true
  | _ => false
  end.

Definition is_pool_start (c : Call) : bool :=
  match c with
  | call_Pool _ => true
  | _ => false
  end.

(** A directory entry the enumeration takes as an image: a regular file
    whose classification returns a format. *)
Definition recognized (env : Env) (path : string) : bool :=
  os_path_isfile env path
  && match imghdr_what env path with
     | Ret image_type => truthy image_type
     | Raise _ => false
     end.

(** [m] prints nothing and makes only calls that satisfy [P]. *)
Definition makes_only (P : Call -> bool) {A : Type} (m : M A) : Prop :=
  forall st,
    stdout (snd (m st)) = stdout st
    /\ exists new, calls (snd (m st)) = (calls st ++ new)%list
                   /\ forallb P new = true.

(** The task list the enumeration builds from the names [os.listdir] gave. *)
Definition tasks_of (env : Env) (input_folder output_folder : string)
    (filenames : list string) : list Task :=
  map (fun filename => (os_path_join env input_folder filename, output_folder))
      (filter (fun filename =>
                 recognized env (os_path_join env input_folder filename))
              filenames).

(** The line printed for a failed result. *)
Definition failure_line (r : TaskResult) : string :=
  "- " ++ input_filename r ++ ": " ++ format_opt (error_message r).

Definition not_pool_start (c : Call) : bool := negb (is_pool_start c).

(** The state after the calls [cs] have been made from [st]. *)
Definition after_calls (st : State) (cs : list Call) : State :=
  mkState (rng_pos st) (calls st ++ cs) (stdout st).

(** [c in s] for a character [c]. *)
Fixpoint contains (c : ascii) (s : string) : bool :=
  match s with
  | EmptyString => false
  | String a r => Ascii.eqb a c || contains c r
  end.

Definition is_save (c : Call) : bool :=
  match c with
  | call_Image_save _ _ => true
  | _ => false
  end.

(** The calls of the three clean-up steps. *)
Definition is_cleanup (c : Call) : bool :=
  match c with
  | call_piexif_remove _ | call_subprocess_run _ | call_os_utime _ _ => true
  | _ => false
  end.

(** What a call made after the classification may touch: the input file for
    reading, images in memory, and the one file at [output_path], written
    from an image without [info]. *)
Definition touches_only (input_path output_path : string) (c : Call) : bool :=
  match c with
  | call_Image_open p | call_Image_getdata p | call_Image_close p =>
      String.eqb p input_path
  | call_Image_new _ _ | call_Image_putdata _ => true
  | call_Image_save img p =>
      String.eqb p output_path
      && match info img with [] => true | _ :: _ => false end
  | call_piexif_remove p => String.eqb p output_path
  | call_subprocess_run [a; b; p] =>
      String.eqb a "xattr" && String.eqb b "-c" && String.eqb p output_path
  | call_os_utime p (atime, mtime) =>
      String.eqb p output_path && Z.eqb atime 0 && Z.eqb mtime 0
  | _ => false
  end.

(** Calls that look at the files of the input folder, start workers or work
    on an image: what [process_folder] does after its two set-up calls. *)
Definition is_processing (c : Call) : bool :=
  is_probe c || is_pool_start c || is_image_step c.

(** The input opens as [img], its pixels decode to [data], and the new image
    is created and filled without an error. *)
Definition decodes (env : Env) (input_path : string) (img : ImageFile)
    (data : list Pixel) : Prop :=
  Image_open env input_path = Ret img
  /\ load img = Ret data
  /\ exists buffer u,
       Image_new env (mode (header img)) (size (header img)) = Ret buffer
       /\ Image_putdata env
            (mkImage (mode (header img)) (size (header img)) buffer []) data
          = Ret u.

(** The image [remove_all_metadata] builds from an opened one. *)
Definition rebuilt (img : ImageFile) (data : list Pixel) : Image :=
  mkImage (mode (header img)) (size (header img)) data [].

(** ** Environments with faults *)

Module Faults.

(** [Demo.healthy] on a host named [name], with the given results of
    [os.makedirs], [Image.open] (when given), [piexif.remove], the [xattr]
    command, [os.utime] and [Image.save]. *)
Definition env (name : string) (makedirs : Outcome unit)
    (opened : option (Outcome ImageFile))
    (piexif xattr utime save : Outcome unit) : Env :=
  {| os_name := name;
     os_path_basename := os_path_basename Demo.healthy;
     os_path_join := os_path_join Demo.healthy;
     os_path_isfile := os_path_isfile Demo.healthy;
     os_makedirs := fun _ => makedirs;
     os_listdir := os_listdir Demo.healthy;
     os_utime := fun _ _ => utime;
     cpu_count := cpu_count Demo.healthy;
     random_source := random_source Demo.healthy;
     imghdr_what := imghdr_what Demo.healthy;
     Image_open := fun p =>
       match opened with
       | Some o => o
       | None => Image_open Demo.healthy p
       end;
     Image_new := Image_new Demo.healthy;
     Image_putdata := Image_putdata Demo.healthy;
     Image_save := fun _ _ => save;
     piexif_remove := fun _ => piexif;
     subprocess_run := fun _ => xattr |}.

Definition os_error (text : string) : Outcome unit := Raise (mkExc OSError text).

(** Every clean-up step fails in a way its handler catches. *)
Definition failing_cleanup : Env :=
  env "posix" (Ret tt) None
      (os_error "piexif: given data is not jpeg")
      (Raise (mkExc CalledProcessError
                    "Command 'xattr' returned non-zero exit status 1."))
      (os_error "[Errno 1] Operation not permitted")
      (Ret tt).

(** A host that is not POSIX. *)
Definition windows : Env :=
  env "nt" (Ret tt) None (Ret tt) (os_error "xattr must not run") (Ret tt) (Ret tt).

(** The image header is read, the pixel data is truncated. *)
Definition truncated : Env :=
  env "posix" (Ret tt)
      (Some (Ret (mkImageFile (header Demo.picture)
                              (Raise (mkExc OSError "image file is truncated")))))
      (Ret tt) (Ret tt) (Ret tt) (Ret tt).

(** The output folder cannot be created. *)
Definition read_only : Env :=
  env "posix" (os_error "[Errno 30] Read-only file system: 'output'") None
      (Ret tt) (Ret tt) (Ret tt) (Ret tt).

End Faults.

(** The calls of the enumeration loop over [filenames]: [os.path.isfile] on
    every entry, [imghdr.what] on the regular files. *)
Definition probes_of (env : Env) (input_folder : string)
    (filenames : list string) : list Call :=
  flat_map
    (fun filename =>
       let input_path := os_path_join env input_folder filename in
       if os_path_isfile env input_path
       then [call_os_path_isfile input_path; call_imghdr_what input_path]
       else [call_os_path_isfile input_path])
    filenames.

(** From [st] to [st'], [remove_all_metadata] is invoked once on each task of
    the list and on nothing else, and [results] holds what the invocations
    returned, the result of the i-th task at position i. *)
Fixpoint each_task_once (env : Env) (tasks : list Task)
    (results : list TaskResult) (st st' : State) : Prop :=
  match tasks, results with
  | [], [] => st = st'
  | task :: tasks', r :: results' =>
      exists st1,
        remove_all_metadata env task st = (Ret r, st1)
        /\ each_task_once env tasks' results' st1 st'
  | _, _ => False
  end.

(** * Properties *)

(** ** The embedding on the example environments *)

Example basename_nested : posixpath.basename "input/sub/cat.png" = "cat.png".
Proof. reflexivity. Qed.

Example basename_plain : posixpath.basename "cat.png" = "cat.png".
Proof. reflexivity. Qed.

Example basename_trailing_slash : posixpath.basename "input/" = EmptyString.
Proof. reflexivity. Qed.

Example join_plain : posixpath.join "input" "cat.png" = "input/cat.png".
Proof. reflexivity. Qed.

Example join_after_slash : posixpath.join "input/" "cat.png" = "input/cat.png".
Proof. reflexivity. Qed.

Example join_absolute : posixpath.join "input" "/tmp/cat.png" = "/tmp/cat.png".
Proof. reflexivity. Qed.

Example what_png : imghdr.what (Ret Demo.png_file) = Ret (Some "png").
Proof. reflexivity. Qed.

Example what_jpeg : imghdr.what (Ret Demo.jpeg_file) = Ret (Some "jpeg").
Proof. reflexivity. Qed.

Example what_text : imghdr.what (Ret (imghdr.lit "hello")) = Ret None.
Proof. reflexivity. Qed.

Example what_zero_bytes : imghdr.what (Ret []) = Ret None.
Proof. reflexivity. Qed.

Example format_nat_12 : format_nat 12 = "12".
Proof. reflexivity. Qed.

(** A draw whose product with 62 rounds up to the next integer. *)
Example choice_index_rounds_to_double :
  choice_index 4648877034705028 62 = 32
  /\ (4648877034705028 * 62 / 2 ^ 53 = 31)%Z
  /\ String.get 32 (ascii_letters ++ digits) = Some "G"%char.
Proof. repeat split. Qed.

Example random_string_healthy :
  fst (random_string Demo.healthy 20 initial_state) = Ret "aiqzHQY7fowFNW4dluCL".
Proof. vm_compute. reflexivity. Qed.

(** A JPEG goes through all three clean-up steps. *)
Example sanitize_jpeg :
  remove_all_metadata Demo.healthy ("input/dog.jpg", "output") initial_state
  = (Ret (true, "dog.jpg", None),
     mkState 20
       [call_imghdr_what "input/dog.jpg";
        call_Image_open "input/dog.jpg";
        call_Image_getdata "input/dog.jpg";
        call_Image_new "RGB" (2, 1);
        call_Image_putdata [[255; 0; 0]; [0; 0; 255]]%Z;
        call_Image_save
          (mkImage "RGB" (2, 1) [[255; 0; 0]; [0; 0; 255]]%Z [])
          "output/aiqzHQY7fowFNW4dluCL.jpeg";
        call_Image_close "input/dog.jpg";
        call_piexif_remove "output/aiqzHQY7fowFNW4dluCL.jpeg";
        call_subprocess_run ["xattr"; "-c"; "output/aiqzHQY7fowFNW4dluCL.jpeg"];
        call_os_utime "output/aiqzHQY7fowFNW4dluCL.jpeg" (0, 0)%Z]
       []).
Proof. vm_compute. reflexivity. Qed.

(** A file that cannot be opened is reported with the text of the error. *)
Example sanitize_unreadable :
  fst (remove_all_metadata Demo.healthy ("input/locked.png", "output")
                           initial_state)
  = Ret (false, "locked.png",
         Some "[Errno 13] Permission denied: 'input/locked.png'").
Proof. vm_compute. reflexivity. Qed.

(** The whole folder: two images out of six entries. *)
Example process_folder_healthy :
  fst (process_folder Demo.healthy "input" "output" initial_state) = Ret tt
  /\ stdout (snd (process_folder Demo.healthy "input" "output" initial_state))
     = [newline ++ "Processing Summary:"; "Total images processed: 2";
        "Successful: 2"; "Failed: 0"].
Proof. split; vm_compute; reflexivity. Qed.

(** The same folder on a host without [xattr]: every image is written and
    every image is reported as failed. *)
Example process_folder_without_xattr :
  stdout (snd (process_folder Demo.without_xattr "input" "output" initial_state))
  = [newline ++ "Processing Summary:"; "Total images processed: 2";
     "Successful: 0"; "Failed: 2"; newline ++ "Failed Files:";
     "- cat.png: [Errno 2] No such file or directory: 'xattr'";
     "- dog.jpg: [Errno 2] No such file or directory: 'xattr'"].
Proof. vm_compute. reflexivity. Qed.

(** ** Runs of the monad *)

Section Footprint.

Variable P : Call -> bool.

Lemma makes_only_ret {A : Type} (a : A) : makes_only P (ret a).
Proof.
  intros st; cbn. split; [reflexivity|].
  exists []. now rewrite app_nil_r.
Qed.

Lemma makes_only_raise {A : Type} (e : Exc) : makes_only P (@raise A e).
Proof.
  intros st; cbn. split; [reflexivity|].
  exists []. now rewrite app_nil_r.
Qed.

Lemma makes_only_call {A : Type} (c : Call) (o : Outcome A) :
  P c = true -> makes_only P (call c o).
Proof.
  intros Hc st; cbn. split; [reflexivity|].
  exists [c]. cbn. now rewrite Hc.
Qed.

Lemma makes_only_bind {A B : Type} (m : M A) (f : A -> M B) :
  makes_only P m -> (forall a, makes_only P (f a)) -> makes_only P (bind m f).
Proof.
  intros Hm Hf st. unfold bind.
  destruct (Hm st) as [Hout [new [Hcalls Hnew]]].
  destruct (m st) as [[a | e] st1]; cbn in *.
  - destruct (Hf a st1) as [Hout' [new' [Hcalls' Hnew']]].
    split; [congruence|].
    exists (new ++ new')%list. rewrite Hcalls', Hcalls, app_assoc.
    split; [reflexivity|]. rewrite forallb_app, Hnew, Hnew'. reflexivity.
  - split; [assumption|]. exists new. now split.
Qed.

Lemma makes_only_try_except {A : Type} (body : M A) (catches : Exc -> bool)
    (handler : Exc -> M A) :
  makes_only P body -> (forall e, makes_only P (handler e)) ->
  makes_only P (try_except body catches handler).
Proof.
  intros Hm Hh st. unfold try_except.
  destruct (Hm st) as [Hout [new [Hcalls Hnew]]].
  destruct (body st) as [[a | e] st1]; cbn in *.
  - split; [assumption|]. exists new. now split.
  - destruct (catches e); cbn.
    + destruct (Hh e st1) as [Hout' [new' [Hcalls' Hnew']]].
      split; [congruence|].
      exists (new ++ new')%list. rewrite Hcalls', Hcalls, app_assoc.
      split; [reflexivity|]. rewrite forallb_app, Hnew, Hnew'. reflexivity.
    + split; [assumption|]. exists new. now split.
Qed.

Lemma makes_only_with {R A : Type} (enter : M R) (exit : R -> M unit)
    (body : R -> M A) :
  makes_only P enter -> (forall r, makes_only P (exit r)) ->
  (forall r, makes_only P (body r)) -> makes_only P (with_ enter exit body).
Proof.
  intros He Hx Hb. unfold with_. apply makes_only_bind; [assumption|].
  intros r st.
  destruct (Hb r st) as [Hout [new [Hcalls Hnew]]].
  destruct (body r st) as [[a | e] st1]; cbn in *.
  - assert (Hk : makes_only P (exit r ;;; ret a)).
    { apply makes_only_bind; [apply Hx | intros; apply makes_only_ret]. }
    destruct (Hk st1) as [Hout' [new' [Hcalls' Hnew']]].
    split; [congruence|].
    exists (new ++ new')%list. rewrite Hcalls', Hcalls, app_assoc.
    split; [reflexivity|]. rewrite forallb_app, Hnew, Hnew'. reflexivity.
  - assert (Hk : makes_only P (exit r ;;; @raise A e)).
    { apply makes_only_bind; [apply Hx | intros; apply makes_only_raise]. }
    destruct (Hk st1) as [Hout' [new' [Hcalls' Hnew']]].
    split; [congruence|].
    exists (new ++ new')%list. rewrite Hcalls', Hcalls, app_assoc.
    split; [reflexivity|]. rewrite forallb_app, Hnew, Hnew'. reflexivity.
Qed.

Lemma makes_only_map_M {A B : Type} (f : A -> M B) (xs : list A) :
  (forall x, makes_only P (f x)) -> makes_only P (map_M f xs).
Proof.
  intros Hf. induction xs as [| x rest IH]; cbn [map_M].
  - apply makes_only_ret.
  - apply makes_only_bind; [apply Hf|]. intros y.
    apply makes_only_bind; [apply IH|]. intros ys. apply makes_only_ret.
Qed.

Lemma makes_only_random_random (env : Env) : makes_only P (random_random env).
Proof.
  intros st; cbn. split; [reflexivity|].
  exists []. now rewrite app_nil_r.
Qed.

End Footprint.

Create HintDb footprint.

#[local] Hint Resolve makes_only_ret makes_only_raise makes_only_bind
  makes_only_try_except makes_only_with makes_only_map_M
  makes_only_random_random : footprint.

Lemma bind_Ret_inv {A B : Type} (m : M A) (f : A -> M B) st b st' :
  bind m f st = (Ret b, st') ->
  exists a st1, m st = (Ret a, st1) /\ f a st1 = (Ret b, st').
Proof.
  unfold bind. destruct (m st) as [[a | e] st1]; intros H.
  - exists a, st1. now split.
  - discriminate.
Qed.

Lemma bind_Ret {A B : Type} (m : M A) (f : A -> M B) st a st1 :
  m st = (Ret a, st1) -> bind m f st = f a st1.
Proof. intros H. unfold bind. now rewrite H. Qed.

Lemma bind_Raise {A B : Type} (m : M A) (f : A -> M B) st e st1 :
  m st = (Raise e, st1) -> bind m f st = (Raise e, st1).
Proof. intros H. unfold bind. now rewrite H. Qed.

(** A [try] whose handler catches [Exception] and returns does not raise. *)
Lemma try_except_Exception_returns {A : Type} (body : M A) (handler : Exc -> A) st :
  exists a st',
    try_except body except_Exception (fun e => ret (handler e)) st = (Ret a, st')
    /\ (forall b st1, body st = (Ret b, st1) -> a = b)
    /\ (forall e st1, body st = (Raise e, st1) -> a = handler e).
Proof.
  unfold try_except, except_Exception, ret.
  destruct (body st) as [[a | e] st1].
  - exists a, st1. repeat split; congruence.
  - exists (handler e), st1. repeat split; congruence.
Qed.

(** ** [random_string] *)

(** Rounding the product of a [random()] below 1 and [n] to a double does
    not reach [n]. *)
Lemma binary64_round_bounds (k n : Z) :
  (0 <= k < 2 ^ 53)%Z -> (0 < n)%Z ->
  (0 <= binary64_round (k * n) < n * 2 ^ 53)%Z.
Proof.
  intros Hk Hn. unfold binary64_round.
  set (p := (k * n)%Z).
  assert (Hp : (0 <= p <= n * 2 ^ 53 - n)%Z) by (subst p; nia).
  set (e := Z.max 0 (Z.log2 p - 52)).
  assert (He : (0 <= e)%Z) by (subst e; lia).
  assert (HE : (0 < 2 ^ e)%Z) by (apply Z.pow_pos_nonneg; lia).
  pose proof (Z.div_mod p (2 ^ e) ltac:(lia)) as Hdiv.
  pose proof (Z.mod_pos_bound p (2 ^ e) HE) as Hr.
  assert (Hq : (0 <= p / 2 ^ e)%Z) by (apply Z.div_pos; lia).
  set (q := (p / 2 ^ e)%Z) in *. set (r := (p mod 2 ^ e)%Z) in *.
  assert (Hsmall : (2 ^ e < 2 * n \/ e = 0)%Z).
  { destruct (Z.leb_spec (Z.log2 p) 52) as [Hl | Hl].
    - right. subst e. lia.
    - left. assert (Hpos : (0 < p)%Z).
      { destruct (Z.eq_dec p 0) as [H0 | H0]; [|lia].
        rewrite H0 in Hl. cbn in Hl. lia. }
      pose proof (Z.log2_spec p Hpos) as [Hlow _].
      assert (Hexp : Z.log2 p = (e + 52)%Z) by (subst e; lia).
      rewrite Hexp, Z.pow_add_r in Hlow by lia.
      change (2 ^ 52)%Z with 4503599627370496%Z in Hlow.
      change (2 ^ 53)%Z with 9007199254740992%Z in Hp.
      lia. }
  change (2 ^ 53)%Z with 9007199254740992%Z in *.
  destruct Hsmall as [Hsmall | Hzero].
  - destruct ((2 ^ e <? 2 * r)%Z || ((2 * r =? 2 ^ e)%Z && Z.odd q))%bool
      eqn:Hup.
    + assert (Hhalf : (2 ^ e <= 2 * r)%Z).
      { apply orb_true_iff in Hup. destruct Hup as [H | H].
        - apply Z.ltb_lt in H. lia.
        - apply andb_true_iff in H. destruct H as [H _].
          apply Z.eqb_eq in H. lia. }
      nia.
    + nia.
  - assert (H1 : (2 ^ e = 1)%Z) by (rewrite Hzero; reflexivity).
    rewrite H1 in *.
    assert (Hr0 : r = 0%Z) by lia.
    rewrite Hr0. cbn [Z.mul Z.ltb Z.eqb Z.compare orb andb].
    lia.
Qed.

Lemma choice_index_in_range (r : Z) (n : nat) :
  (0 < n)%nat -> (choice_index (r mod 2 ^ 53) n < n)%nat.
Proof.
  intros Hn. unfold choice_index.
  assert (Hr : (0 <= r mod 2 ^ 53 < 2 ^ 53)%Z) by (apply Z.mod_pos_bound; lia).
  destruct (binary64_round_bounds (r mod 2 ^ 53) (Z.of_nat n) Hr ltac:(lia))
    as [Hlow Hhigh].
  apply Nat2Z.inj_lt. rewrite Z2Nat.id.
  - apply Z.div_lt_upper_bound; [lia | lia].
  - apply Z.div_pos; [exact Hlow | lia].
Qed.

Lemma get_in_range (s : string) (i : nat) :
  (i < String.length s)%nat ->
  exists c, String.get i s = Some c /\ In c (list_ascii_of_string s).
Proof.
  revert i. induction s as [| a s IH]; intros i Hi; cbn in *; [lia|].
  destruct i as [| i].
  - exists a. split; [reflexivity | now left].
  - destruct (IH i) as [c [Hget Hin]]; [lia|].
    exists c. split; [assumption | now right].
Qed.

Lemma length_join_chars (cs : list ascii) :
  String.length (join_chars cs) = List.length cs.
Proof.
  unfold join_chars.
  induction cs as [| c cs IH]; cbn; [reflexivity | now rewrite IH].
Qed.

Lemma random_choices_run (env : Env) (population : string) (k : nat) st :
  (0 < String.length population)%nat ->
  exists cs,
    random_choices env population k st
      = (Ret cs, mkState (rng_pos st + k) (calls st) (stdout st))
    /\ List.length cs = k
    /\ Forall (fun c => In c (list_ascii_of_string population)) cs.
Proof.
  intros Hpop. revert st. induction k as [| k IH]; intros st; cbn [random_choices].
  - exists []. rewrite Nat.add_0_r. destruct st; cbn. repeat split. constructor.
  - unfold bind at 1. cbn [random_random].
    destruct (get_in_range population
                (choice_index (random_source env (rng_pos st) mod 2 ^ 53)
                              (String.length population)))
      as [c [Hget Hin]]; [now apply choice_index_in_range|].
    unfold bind at 1, str_index. rewrite Hget. cbn [ret].
    destruct (IH (mkState (S (rng_pos st)) (calls st) (stdout st)))
      as [cs [Hrun [Hlen Hall]]].
    unfold bind at 1. rewrite Hrun. cbn.
    exists (c :: cs). rewrite <- Nat.add_succ_comm. repeat split.
    + cbn. now rewrite Hlen.
    + now constructor.
Qed.

Lemma population_is_alnum :
  forallb is_alnum (list_ascii_of_string (ascii_letters ++ digits)) = true.
Proof. reflexivity. Qed.

Lemma random_string_run (env : Env) (length : nat) st :
  exists name,
    random_string env length st
      = (Ret name, mkState (rng_pos st + length) (calls st) (stdout st))
    /\ String.length name = length
    /\ forallb is_alnum (list_ascii_of_string name) = true.
Proof.
  destruct (random_choices_run env (ascii_letters ++ digits) length st)
    as [cs [Hrun [Hlen Hall]]]; [cbn; lia|].
  exists (join_chars cs). unfold random_string.
  rewrite (bind_Ret _ _ _ _ _ Hrun). cbn [ret]. repeat split.
  - now rewrite length_join_chars.
  - unfold join_chars. rewrite list_ascii_of_string_of_list_ascii.
    apply forallb_forall. intros c Hc.
    rewrite Forall_forall in Hall.
    exact (proj1 (forallb_forall _ _) population_is_alnum c (Hall c Hc)).
Qed.

(** ** [remove_all_metadata] *)

(** Case analysis on the next [match] or [if] of a run. *)
Ltac step_run :=
  match goal with
  | |- context [match ?x with _ => _ end] => destruct x eqn:?
  | H : context [match ?x with _ => _ end] |- _ => destruct x eqn:?
  end; cbn in *; try discriminate.

Ltac finish_run :=
  repeat match goal with u : unit |- _ => destruct u end;
  eexists; reflexivity.

(** After a successful classification the function draws the 20 characters of
    the name and goes on to the [with] block with the path made of it. *)
Lemma remove_all_metadata_try_classified (env : Env)
    (input_path output_folder : string) (image_type : option string) st :
  imghdr_what env input_path = Ret image_type ->
  truthy image_type = true ->
  exists name,
    String.length name = 20
    /\ forallb is_alnum (list_ascii_of_string name) = true
    /\ remove_all_metadata_try env input_path output_folder st
       = (let output_path :=
            os_path_join env output_folder
                         (name ++ "." ++ format_opt image_type) in
          copy_pixels env input_path output_path ;;;
          scrub_file env image_type output_path ;;;
          ret (true, os_path_basename env input_path, None))
           (mkState (rng_pos st + 20)
                    (calls st ++ [call_imghdr_what input_path])
                    (stdout st)).
Proof.
  intros Hwhat Htruthy.
  destruct (random_string_run env 20
              (mkState (rng_pos st) (calls st ++ [call_imghdr_what input_path])
                       (stdout st)))
    as [name [Hrun [Hlen Halnum]]].
  exists name. split; [assumption|]. split; [assumption|].
  unfold remove_all_metadata_try.
  unfold bind at 1, call at 1. rewrite Hwhat, Htruthy. cbn [negb].
  unfold bind at 1, output_filename at 1.
  rewrite (bind_Ret _ _ _ _ _ Hrun). cbn [ret rng_pos calls stdout].
  reflexivity.
Qed.

(** What the body of the outer [try] returns when it returns. *)
Lemma remove_all_metadata_try_Ret (env : Env) (input_path output_folder : string)
    st r st' :
  remove_all_metadata_try env input_path output_folder st = (Ret r, st') ->
  r = (true, os_path_basename env input_path, None)
  \/ r = (false, os_path_basename env input_path, Some unsupported_message)
     /\ exists image_type, imghdr_what env input_path = Ret image_type
                           /\ truthy image_type = false.
Proof.
  intros Hrun.
  destruct (imghdr_what env input_path) as [image_type | e] eqn:Hwhat.
  - destruct (truthy image_type) eqn:Htruthy.
    + destruct (remove_all_metadata_try_classified env input_path output_folder
                  image_type st Hwhat Htruthy) as [name [_ [_ Heq]]].
      rewrite Heq in Hrun. cbn zeta in Hrun.
      apply bind_Ret_inv in Hrun. destruct Hrun as [u1 [st1 [_ Hrun]]].
      apply bind_Ret_inv in Hrun. destruct Hrun as [u2 [st2 [_ Hrun]]].
      left. unfold ret in Hrun. congruence.
    + right. unfold remove_all_metadata_try, bind, call in Hrun.
      rewrite Hwhat, Htruthy in Hrun. cbn in Hrun. unfold ret in Hrun.
      split; [congruence | now exists image_type].
  - unfold remove_all_metadata_try, bind, call in Hrun.
    rewrite Hwhat in Hrun. discriminate.
Qed.

(** The three outcomes of [remove_all_metadata]. *)
Lemma remove_all_metadata_result (env : Env) (input_path output_folder : string) st :
  exists r st',
    remove_all_metadata env (input_path, output_folder) st = (Ret r, st')
    /\ (r = (true, os_path_basename env input_path, None)
        \/ r = (false, os_path_basename env input_path, Some unsupported_message)
        \/ exists e st1,
             remove_all_metadata_try env input_path output_folder st
               = (Raise e, st1)
             /\ r = (false, os_path_basename env input_path, Some (exc_str e))).
Proof.
  unfold remove_all_metadata.
  destruct (try_except_Exception_returns
              (remove_all_metadata_try env input_path output_folder)
              (fun e => (false, os_path_basename env input_path, Some (exc_str e)))
              st) as [r [st' [Hrun [Hret Hraise]]]].
  exists r, st'. split; [exact Hrun|].
  destruct (remove_all_metadata_try env input_path output_folder st)
    as [[b | e] st1] eqn:Hbody.
  - rewrite (Hret b st1 eq_refl).
    destruct (remove_all_metadata_try_Ret _ _ _ _ _ _ Hbody) as [H | [H _]];
      [left | right; left]; exact H.
  - right; right. exists e, st1. split; [reflexivity|].
    exact (Hraise e st1 eq_refl).
Qed.

(** The clean-up steps return unless the [xattr] command raises something
    other than [CalledProcessError] on a POSIX host. *)
Lemma scrub_file_returns (env : Env) (image_type : option string)
    (output_path : string) st :
  (String.eqb (os_name env) "posix" = false
   \/ match subprocess_run env ["xattr"; "-c"; output_path] with
      | Ret _ => True
      | Raise e => except_CalledProcessError e = true
      end) ->
  exists st', scrub_file env image_type output_path st = (Ret tt, st').
Proof.
  intros Hxattr. unfold scrub_file, bind, try_except, call, pass, ret,
    except_Exception.
  destruct Hxattr as [Hos | Hrun].
  - rewrite Hos. repeat step_run; finish_run.
  - destruct (subprocess_run env ["xattr"; "-c"; output_path]) as [u | e].
    + repeat step_run; finish_run.
    + rewrite Hrun. repeat step_run; finish_run.
Qed.

(** Where the clean-up steps do raise. *)
Lemma scrub_file_raises (env : Env) (image_type : option string)
    (output_path : string) st e :
  String.eqb (os_name env) "posix" = true ->
  subprocess_run env ["xattr"; "-c"; output_path] = Raise e ->
  except_CalledProcessError e = false ->
  exists st', scrub_file env image_type output_path st = (Raise e, st').
Proof.
  intros Hos Hrun Hclass. unfold scrub_file, bind, try_except, call, pass, ret,
    except_Exception.
  rewrite Hos, Hrun, Hclass. repeat step_run; finish_run.
Qed.

(** Failures of the metadata pass, of [xattr] with a non-zero exit status and
    of the timestamp reset leave the result a success. *)
Lemma swallowed_cleanup_failures (env : Env) (input_path output_folder : string)
    (image_type : option string) st :
  imghdr_what env input_path = Ret image_type ->
  truthy image_type = true ->
  (forall output_path st1,
     exists st2, copy_pixels env input_path output_path st1 = (Ret tt, st2)) ->
  (String.eqb (os_name env) "posix" = false
   \/ forall output_path,
        match subprocess_run env ["xattr"; "-c"; output_path] with
        | Ret _ => True
        | Raise e => except_CalledProcessError e = true
        end) ->
  exists st',
    remove_all_metadata env (input_path, output_folder) st
      = (Ret (true, os_path_basename env input_path, None), st').
Proof.
  intros Hwhat Htruthy Hcopy Hxattr.
  destruct (remove_all_metadata_try_classified env input_path output_folder
              image_type st Hwhat Htruthy) as [name [_ [_ Heq]]].
  unfold remove_all_metadata, try_except. rewrite Heq. cbn zeta.
  match goal with
  | |- context [copy_pixels env input_path ?p ;;; _] =>
      destruct (Hcopy p (mkState (rng_pos st + 20)
                           (calls st ++ [call_imghdr_what input_path])
                           (stdout st))) as [st2 Hc];
      destruct (scrub_file_returns env image_type p st2) as [st3 Hs]
  end.
  { destruct Hxattr as [H | H]; [now left | right; apply H]. }
  rewrite (bind_Ret _ _ _ _ _ Hc), (bind_Ret _ _ _ _ _ Hs). cbn.
  eexists; reflexivity.
Qed.



(** C3, on the code: on a POSIX host without the [xattr] utility,
    [subprocess.run] raises [FileNotFoundError], which the handler for
    [CalledProcessError] lets through: the image has been decoded, rebuilt and
    saved, and the result is a failure all the same. *)
Theorem missing_xattr_fails_a_written_file :
  exists output_path st1 st2 img st',
    copy_pixels Demo.without_xattr "input/cat.png" output_path st1
      = (Ret tt, st2)
    /\ remove_all_metadata Demo.without_xattr ("input/cat.png", "output")
                           initial_state
       = (Ret (false, "cat.png",
               Some "[Errno 2] No such file or directory: 'xattr'"), st')
    /\ In (call_Image_save img output_path) (calls st')
    /\ In (call_subprocess_run ["xattr"; "-c"; output_path]) (calls st').
Proof.
  exists "output/aiqzHQY7fowFNW4dluCL.png".
  exists (mkState 20 [call_imghdr_what "input/cat.png"] []).
  do 3 eexists.
  split; [vm_compute; reflexivity|].
  split; [vm_compute; reflexivity|].
  cbn [calls]. split.
  - do 5 right. left. reflexivity.
  - do 7 right. left. reflexivity.
Qed.

(** C4: an input whose classification returns nothing is reported as a
    failure with the message "Unsupported or invalid image file" and the
    basename of the input path; the classification is the only call made, so
    nothing has been written. *)
Theorem unclassified_input_is_rejected (env : Env)
    (input_path output_folder : string) (image_type : option string) st :
  imghdr_what env input_path = Ret image_type ->
  truthy image_type = false ->
  remove_all_metadata env (input_path, output_folder) st
    = (Ret (false, os_path_basename env input_path,
            Some "Unsupported or invalid image file"),
       mkState (rng_pos st) (calls st ++ [call_imghdr_what input_path])
               (stdout st)).
Proof.
  intros Hwhat Htruthy.
  unfold remove_all_metadata, try_except, remove_all_metadata_try, bind, call.
  rewrite Hwhat, Htruthy. reflexivity.
Qed.

(** A zero-byte file in the example environment. *)
Lemma unclassified_input_is_rejected_witness :
  imghdr.what (Ret []) = Ret None
  /\ remove_all_metadata Demo.healthy ("input/empty.bin", "output") initial_state
     = (Ret (false, "empty.bin", Some "Unsupported or invalid image file"),
        mkState 0 [call_imghdr_what "input/empty.bin"] []).
Proof.
  split; [reflexivity|].
  apply (unclassified_input_is_rejected Demo.healthy "input/empty.bin" "output"
           None initial_state); reflexivity.
Defined.

(** C5: for a classified input the output filename is 20 ASCII letters and
    digits, a dot and the detected format; between the classification and the
    [with] block that writes to that name the function only draws the 20
    characters, it makes no call that could look for an existing file. *)
Theorem output_name_is_a_random_token (env : Env)
    (input_path output_folder : string) (image_type : string) st :
  imghdr_what env input_path = Ret (Some image_type) ->
  image_type <> EmptyString ->
  exists name,
    String.length name = 20
    /\ forallb is_alnum (list_ascii_of_string name) = true
    /\ output_filename env (Some image_type)
         (mkState (rng_pos st) (calls st ++ [call_imghdr_what input_path])
                  (stdout st))
       = (Ret (name ++ "." ++ image_type),
          mkState (rng_pos st + 20) (calls st ++ [call_imghdr_what input_path])
                  (stdout st))
    /\ remove_all_metadata_try env input_path output_folder st
       = (let output_path :=
            os_path_join env output_folder (name ++ "." ++ image_type) in
          copy_pixels env input_path output_path ;;;
          scrub_file env (Some image_type) output_path ;;;
          ret (true, os_path_basename env input_path, None))
           (mkState (rng_pos st + 20)
                    (calls st ++ [call_imghdr_what input_path])
                    (stdout st)).
Proof.
  intros Hwhat Hne.
  assert (Htruthy : truthy (Some image_type) = true).
  { destruct image_type; [contradiction | reflexivity]. }
  destruct (random_string_run env 20
              (mkState (rng_pos st) (calls st ++ [call_imghdr_what input_path])
                       (stdout st)))
    as [name [Hrun [Hlen Halnum]]].
  exists name. split; [assumption|]. split; [assumption|]. split.
  - unfold output_filename. rewrite (bind_Ret _ _ _ _ _ Hrun). reflexivity.
  - unfold remove_all_metadata_try.
    unfold bind at 1, call at 1. rewrite Hwhat, Htruthy. cbn [negb].
    unfold bind at 1, output_filename at 1.
    rewrite (bind_Ret _ _ _ _ _ Hrun). reflexivity.
Qed.

Lemma output_name_is_a_random_token_witness :
  exists name,
    String.length name = 20
    /\ forallb is_alnum (list_ascii_of_string name) = true
    /\ output_filename Demo.healthy (Some "png")
         (mkState 0 [call_imghdr_what "input/cat.png"] [])
       = (Ret (name ++ ".png"),
          mkState 20 [call_imghdr_what "input/cat.png"] [])
    /\ remove_all_metadata_try Demo.healthy "input/cat.png" "output" initial_state
       = (let output_path := posixpath.join "output" (name ++ ".png") in
          copy_pixels Demo.healthy "input/cat.png" output_path ;;;
          scrub_file Demo.healthy (Some "png") output_path ;;;
          ret (true, "cat.png", None))
           (mkState 20 [call_imghdr_what "input/cat.png"] []).
Proof.
  apply (output_name_is_a_random_token Demo.healthy "input/cat.png" "output"
           "png" initial_state); [reflexivity | discriminate].
Defined.

(** C8: a result with the success flag set is exactly
    [(True, os.path.basename(input_path), None)]. *)
Theorem success_result_shape (env : Env) (input_path output_folder : string)
    st r st' :
  remove_all_metadata env (input_path, output_folder) st = (Ret r, st') ->
  success r = true ->
  r = (true, os_path_basename env input_path, None).
Proof.
  intros Hrun Hsuccess.
  destruct (remove_all_metadata_result env input_path output_folder st)
    as [r0 [st0 [Hrun0 Hcases]]].
  rewrite Hrun in Hrun0. injection Hrun0 as Hr _. subst r0.
  destruct Hcases as [H | [H | [e [st1 [_ H]]]]]; subst r;
    [reflexivity | discriminate | discriminate].
Qed.

Lemma success_result_shape_witness :
  exists r st',
    remove_all_metadata Demo.healthy ("input/cat.png", "output") initial_state
      = (Ret r, st')
    /\ success r = true
    /\ r = (true, "cat.png", None).
Proof.
  eexists; eexists.
  split; [vm_compute; reflexivity|]. split; [reflexivity|].
  eapply (success_result_shape Demo.healthy "input/cat.png" "output"
            initial_state); [vm_compute; reflexivity | reflexivity].
Defined.

(** ** Calls made by [remove_all_metadata] *)

Lemma makes_only_random_choices (P : Call -> bool) (env : Env)
    (population : string) (k : nat) :
  makes_only P (random_choices env population k).
Proof.
  induction k as [| k IH]; cbn [random_choices]; auto with footprint.
  apply makes_only_bind; [auto with footprint|]. intros r.
  apply makes_only_bind.
  - unfold str_index. destruct (String.get _ _); auto with footprint.
  - intros c. apply makes_only_bind; [exact IH|]. auto with footprint.
Qed.

Lemma makes_only_output_filename (P : Call -> bool) (env : Env)
    (image_type : option string) :
  makes_only P (output_filename env image_type).
Proof.
  unfold output_filename.
  apply makes_only_bind; [|intros; auto with footprint].
  unfold random_string.
  apply makes_only_bind; [apply makes_only_random_choices|].
  intros; auto with footprint.
Qed.

Lemma makes_only_copy_pixels (env : Env) (input_path output_path : string) :
  makes_only is_image_step (copy_pixels env input_path output_path).
Proof.
  unfold copy_pixels. apply makes_only_with; intros.
  - now apply makes_only_call.
  - now apply makes_only_call.
  - repeat (apply makes_only_bind; [now apply makes_only_call | intros]).
    now apply makes_only_call.
Qed.

Lemma makes_only_scrub_file (env : Env) (image_type : option string)
    (output_path : string) :
  makes_only is_image_step (scrub_file env image_type output_path).
Proof.
  unfold scrub_file, pass.
  apply makes_only_bind; [|intros; apply makes_only_bind; [|intros]].
  - destruct (str_in _ _); auto with footprint.
    apply makes_only_try_except; auto with footprint.
    now apply makes_only_call.
  - destruct (String.eqb _ _); auto with footprint.
    apply makes_only_try_except; auto with footprint.
    now apply makes_only_call.
  - apply makes_only_try_except; auto with footprint.
    now apply makes_only_call.
Qed.

Lemma try_except_call_first {A B : Type} (c : Call) (o : Outcome A)
    (k : A -> M B) (catches : Exc -> bool) (handler : Exc -> M B) st :
  try_except (bind (call c o) k) catches handler st
  = let st1 := mkState (rng_pos st) (calls st ++ [c]) (stdout st) in
    match o with
    | Ret a => try_except (k a) catches handler st1
    | Raise e => if catches e then handler e st1 else (Raise e, st1)
    end.
Proof. unfold try_except, bind, call. destruct o; reflexivity. Qed.

(** A run of [remove_all_metadata] classifies its input once, first, and
    makes only image and clean-up calls after that. *)
Lemma remove_all_metadata_footprint (env : Env) (input_path output_folder : string)
    st :
  stdout (snd (remove_all_metadata env (input_path, output_folder) st)) = stdout st
  /\ exists rest,
       calls (snd (remove_all_metadata env (input_path, output_folder) st))
         = (calls st ++ call_imghdr_what input_path :: rest)%list
       /\ forallb is_image_step rest = true.
Proof.
  unfold remove_all_metadata, remove_all_metadata_try.
  rewrite try_except_call_first. cbn zeta.
  set (st1 := mkState (rng_pos st) (calls st ++ [call_imghdr_what input_path])
                      (stdout st)).
  assert (Hrest : forall (m : M TaskResult),
             makes_only is_image_step m ->
             stdout (snd (m st1)) = stdout st
             /\ exists rest,
                  calls (snd (m st1))
                    = (calls st ++ call_imghdr_what input_path :: rest)%list
                  /\ forallb is_image_step rest = true).
  { intros m Hm. destruct (Hm st1) as [Hout [new [Hcalls Hnew]]].
    split; [exact Hout|]. exists new. split; [|exact Hnew].
    rewrite Hcalls. subst st1. cbn [calls]. now rewrite <- app_assoc. }
  destruct (imghdr_what env input_path) as [image_type | e].
  - apply Hrest. apply makes_only_try_except; [|auto with footprint].
    destruct (truthy image_type); cbn [negb]; [|auto with footprint].
    apply makes_only_bind; [apply makes_only_output_filename | intros name].
    apply makes_only_bind; [apply makes_only_copy_pixels | intros].
    apply makes_only_bind; [apply makes_only_scrub_file | intros].
    auto with footprint.
  - unfold except_Exception. apply Hrest. auto with footprint.
Qed.

Lemma image_steps_are_not_others (cs : list Call) :
  forallb is_image_step cs = true ->
  filter is_classification cs = [] /\ forallb not_pool_start cs = true.
Proof.
  induction cs as [| c cs IH]; cbn; [now split|].
  intros H. apply andb_prop in H. destruct H as [Hc Hcs].
  destruct (IH Hcs) as [Hf Hp].
  destruct c; cbn in *; try discriminate; now split.
Qed.

(** The pool step: one result per task, in the order of the tasks. *)
Lemma pool_map_run (env : Env) (tasks : list Task) st :
  exists results st',
    map_M (remove_all_metadata env) tasks st = (Ret results, st')
    /\ Forall2 (fun task r =>
                  input_filename r = os_path_basename env (fst task)
                  /\ exists s s', remove_all_metadata env task s = (Ret r, s'))
               tasks results
    /\ stdout st' = stdout st
    /\ exists new,
         calls st' = (calls st ++ new)%list
         /\ filter is_classification new
            = map (fun task => call_imghdr_what (fst task)) tasks
         /\ forallb not_pool_start new = true.
Proof.
  revert st. induction tasks as [| [input_path output_folder] rest IH];
    intros st; cbn [map_M].
  - exists [], st. split; [reflexivity|]. split; [constructor|].
    split; [reflexivity|]. exists []. now rewrite app_nil_r.
  - destruct (remove_all_metadata_result env input_path output_folder st)
      as [r [st1 [Hrun Hcases]]].
    destruct (remove_all_metadata_footprint env input_path output_folder st)
      as [Hout [steps [Hcalls Hsteps]]].
    rewrite Hrun in Hout, Hcalls. cbn [snd] in Hout, Hcalls.
    destruct (IH st1) as [results [st' [Hmap [Hall [Hout' [new [Hcalls' [Hf Hp]]]]]]]].
    destruct (image_steps_are_not_others steps Hsteps) as [Hfs Hps].
    exists (r :: results), st'.
    rewrite (bind_Ret _ _ _ _ _ Hrun), (bind_Ret _ _ _ _ _ Hmap).
    split; [reflexivity|]. split.
    { constructor; [|exact Hall]. split.
      - destruct Hcases as [H | [H | [e [s1 [_ H]]]]]; subst r; reflexivity.
      - now exists st, st1. }
    split; [congruence|].
    exists (call_imghdr_what input_path :: steps ++ new)%list.
    split; [|split].
    + rewrite Hcalls', Hcalls, <- app_assoc. reflexivity.
    + cbn. rewrite filter_app, Hfs, Hf. reflexivity.
    + cbn. rewrite forallb_app, Hps, Hp. reflexivity.
Qed.

(** ** [process_folder] *)

(** The enumeration loop returns, with the recognized entries appended to the
    list in the order of [filenames]; its calls are [isfile] and
    [imghdr.what]. *)
Lemma collect_image_files_run (env : Env) (input_folder output_folder : string)
    (filenames : list string) (image_files : list Task) st :
  exists probes,
    collect_image_files env input_folder output_folder filenames image_files st
      = (Ret (image_files ++ tasks_of env input_folder output_folder filenames)%list,
         mkState (rng_pos st) (calls st ++ probes) (stdout st))
    /\ forallb is_probe probes = true.
Proof.
  revert image_files st.
  induction filenames as [| filename rest IH]; intros image_files st;
    cbn [collect_image_files].
  - exists []. unfold tasks_of; cbn. rewrite !app_nil_r. destruct st.
    now split.
  - unfold bind at 1, call at 1. cbn [negb].
    unfold tasks_of, recognized. cbn [filter map].
    fold (recognized env (os_path_join env input_folder filename)).
    set (input_path := os_path_join env input_folder filename).
    set (st1 := mkState (rng_pos st) (calls st ++ [call_os_path_isfile input_path])
                        (stdout st)).
    unfold recognized at 1. fold input_path.
    destruct (os_path_isfile env input_path) eqn:Hfile; cbn [negb andb].
    + unfold bind at 1. rewrite try_except_call_first. cbn zeta.
      set (st2 := mkState (rng_pos st1)
                          (calls st1 ++ [call_imghdr_what input_path])
                          (stdout st1)).
      assert (Hcalls2 : forall probes,
                 (calls st2 ++ probes
                  = calls st ++ call_os_path_isfile input_path
                       :: call_imghdr_what input_path :: probes)%list).
      { intros probes. subst st2 st1. cbn [calls].
        now rewrite <- !app_assoc. }
      destruct (imghdr_what env input_path) as [image_type | e].
      * unfold try_except, bind.
        destruct (truthy image_type); cbn [ret].
        -- destruct (IH (image_files ++ [(input_path, output_folder)])%list st2)
             as [probes [Hrun Hprobes]].
           exists (call_os_path_isfile input_path
                     :: call_imghdr_what input_path :: probes).
           fold (tasks_of env input_folder output_folder rest) in *.
           rewrite Hrun, Hcalls2, <- app_assoc. cbn. now split.
        -- destruct (IH image_files st2) as [probes [Hrun Hprobes]].
           exists (call_os_path_isfile input_path
                     :: call_imghdr_what input_path :: probes).
           fold (tasks_of env input_folder output_folder rest) in *.
           rewrite Hrun, Hcalls2. cbn. now split.
      * unfold except_Exception, ret.
        destruct (IH image_files st2) as [probes [Hrun Hprobes]].
        exists (call_os_path_isfile input_path
                  :: call_imghdr_what input_path :: probes).
        fold (tasks_of env input_folder output_folder rest) in *.
        rewrite Hrun, Hcalls2. cbn. now split.
    + destruct (IH image_files st1) as [probes [Hrun Hprobes]].
      exists (call_os_path_isfile input_path :: probes).
      fold (tasks_of env input_folder output_folder rest) in *.
      rewrite Hrun. subst st1. cbn [calls rng_pos stdout].
      rewrite <- app_assoc. cbn. now split.
Qed.

(** Every task of the list is a recognized entry of the listing. *)
Lemma tasks_of_recognized (env : Env) (input_folder output_folder : string)
    (filenames : list string) (task : Task) :
  In task (tasks_of env input_folder output_folder filenames) ->
  exists filename,
    In filename filenames
    /\ task = (os_path_join env input_folder filename, output_folder)
    /\ recognized env (fst task) = true.
Proof.
  unfold tasks_of. intros H. apply in_map_iff in H.
  destruct H as [filename [Heq Hin]]. apply filter_In in Hin.
  destruct Hin as [Hin Hrec]. exists filename. subst task. now repeat split.
Qed.

(** After the directory has been listed, the function goes on with the task
    list of the recognized entries and with nothing else of the listing. *)
Lemma process_folder_enumerated (env : Env) (input_folder output_folder : string)
    (filenames : list string) (u : unit) st :
  os_makedirs env output_folder = Ret u ->
  os_listdir env input_folder = Ret filenames ->
  exists probes,
    forallb is_probe probes = true
    /\ process_folder env input_folder output_folder st
       = (let image_files := tasks_of env input_folder output_folder filenames in
          results <-
            with_ (Pool (Nat.min (cpu_count env) (List.length image_files)))
                  (fun _ => call call_Pool_terminate (Ret tt))
                  (fun pool => map_M (remove_all_metadata env) image_files) ;;
          print_summary results)
           (mkState (rng_pos st)
                    (calls st ++ call_os_makedirs output_folder
                       :: call_os_listdir input_folder
                       :: probes ++ [call_cpu_count])
                    (stdout st)).
Proof.
  intros Hmk Hls.
  destruct (collect_image_files_run env input_folder output_folder filenames []
              (mkState (rng_pos st)
                       ((calls st ++ [call_os_makedirs output_folder])
                          ++ [call_os_listdir input_folder])
                       (stdout st)))
    as [probes [Hrun Hprobes]].
  exists probes. split; [exact Hprobes|].
  unfold process_folder.
  unfold bind at 1, call at 1. rewrite Hmk.
  unfold bind at 1, call at 1. rewrite Hls. cbn [rng_pos calls stdout].
  rewrite (bind_Ret _ _ _ _ _ Hrun). cbn [app rng_pos calls stdout].
  unfold bind at 1, call at 1. cbn [rng_pos calls stdout].
  rewrite <- !app_assoc. reflexivity.
Qed.

(** [Pool(processes=0)] raises, so a folder without recognized images ends
    [process_folder] with [ValueError] before anything is printed. *)
Lemma process_folder_without_images (env : Env)
    (input_folder output_folder : string) (filenames : list string)
    (u : unit) st :
  os_makedirs env output_folder = Ret u ->
  os_listdir env input_folder = Ret filenames ->
  tasks_of env input_folder output_folder filenames = [] ->
  exists st',
    process_folder env input_folder output_folder st
      = (Raise (mkExc ValueError "Number of processes must be at least 1"), st')
    /\ stdout st' = stdout st.
Proof.
  intros Hmk Hls Hnone.
  destruct (process_folder_enumerated env input_folder output_folder filenames
              u st Hmk Hls) as [probes [_ Hrun]].
  rewrite Hrun, Hnone. cbn [List.length]. rewrite Nat.min_0_r.
  eexists. split; [reflexivity | reflexivity].
Qed.

Lemma print_lines_run {A : Type} (f : A -> M unit) (line : A -> string)
    (xs : list A) st :
  (forall x, f x = print (line x)) ->
  map_M f xs st
  = (Ret (map (fun _ => tt) xs),
     mkState (rng_pos st) (calls st) (stdout st ++ map line xs)).
Proof.
  intros Hf. revert st. induction xs as [| x rest IH]; intros st; cbn [map_M map].
  - rewrite app_nil_r. now destruct st.
  - unfold bind at 1. rewrite Hf. unfold print at 1.
    unfold bind at 1. rewrite IH. cbn [ret rng_pos calls stdout].
    now rewrite <- app_assoc.
Qed.

(** What [print_summary] prints. *)
Lemma print_summary_run (results : list TaskResult) st :
  print_summary results st
  = (Ret tt,
     mkState (rng_pos st) (calls st)
       (stdout st
        ++ [newline ++ "Processing Summary:";
            "Total images processed: " ++ format_nat (List.length results);
            "Successful: "
              ++ format_nat (List.length (filter (fun r => success r) results));
            "Failed: "
              ++ format_nat
                   (List.length (filter (fun r => negb (success r)) results))]
        ++ match filter (fun r => negb (success r)) results with
           | [] => []
           | failed =>
               (newline ++ "Failed Files:") :: map failure_line failed
           end)).
Proof.
  unfold print_summary. cbn zeta.
  unfold bind at 1, print at 1. unfold bind at 1, print at 1.
  unfold bind at 1, print at 1. unfold bind at 1, print at 1.
  cbn [rng_pos calls stdout].
  destruct (filter (fun r => negb (success r)) results) as [| r failed].
  - unfold pass, ret. rewrite <- !app_assoc. reflexivity.
  - unfold bind at 1, print at 1. cbn [rng_pos calls stdout].
    unfold bind at 1.
    rewrite (print_lines_run _ failure_line).
    + unfold pass, ret. cbn [rng_pos calls stdout].
      rewrite <- !app_assoc. reflexivity.
    + intros [[s f] e]. reflexivity.
Qed.

Lemma filter_partition_length {A : Type} (f : A -> bool) (xs : list A) :
  List.length (filter f xs) + List.length (filter (fun x => negb (f x)) xs)
  = List.length xs.
Proof.
  induction xs as [| x xs IH]; cbn; [reflexivity|].
  destruct (f x); cbn; lia.
Qed.

Lemma filter_partition_permutation {A : Type} (f : A -> bool) (xs : list A) :
  Permutation xs (filter f xs ++ filter (fun x => negb (f x)) xs).
Proof.
  induction xs as [| x xs IH]; cbn; [constructor|].
  destruct (f x); cbn.
  - now constructor.
  - now apply Permutation_cons_app.
Qed.

(** With at least one worker the pool is created, every task is run, the pool
    is terminated and the summary of the collected results is printed. *)
Lemma process_folder_run (env : Env) (input_folder output_folder : string)
    (filenames : list string) (u : unit) st :
  os_makedirs env output_folder = Ret u ->
  os_listdir env input_folder = Ret filenames ->
  1 <= Nat.min (cpu_count env)
               (List.length (tasks_of env input_folder output_folder filenames)) ->
  exists probes results st2,
    let image_files := tasks_of env input_folder output_folder filenames in
    let st1 :=
      mkState (rng_pos st)
              (calls st ++ call_os_makedirs output_folder
                 :: call_os_listdir input_folder
                 :: probes
                 ++ [call_cpu_count;
                     call_Pool (Nat.min (cpu_count env) (List.length image_files))])
              (stdout st) in
    forallb is_probe probes = true
    /\ map_M (remove_all_metadata env) image_files st1 = (Ret results, st2)
    /\ process_folder env input_folder output_folder st
       = print_summary results
           (mkState (rng_pos st2) (calls st2 ++ [call_Pool_terminate])
                    (stdout st2)).
Proof.
  intros Hmk Hls Hn.
  destruct (process_folder_enumerated env input_folder output_folder filenames
              u st Hmk Hls) as [probes [Hprobes Hrun]].
  exists probes.
  set (image_files := tasks_of env input_folder output_folder filenames) in *.
  set (n := Nat.min (cpu_count env) (List.length image_files)) in *.
  set (st1 := mkState (rng_pos st)
                (calls st ++ call_os_makedirs output_folder
                   :: call_os_listdir input_folder
                   :: probes ++ [call_cpu_count; call_Pool n])
                (stdout st)).
  destruct (pool_map_run env image_files st1)
    as [results [st2 [Hmap _]]].
  exists results, st2. cbn zeta. fold st1.
  split; [exact Hprobes|]. split; [exact Hmap|].
  rewrite Hrun. cbn zeta.
  unfold bind at 1, with_ at 1, bind at 1, Pool, call at 1.
  assert (Hlt : (n <? 1)%nat = false) by (apply Nat.ltb_ge; exact Hn).
  fold n. rewrite Hlt. cbn [rng_pos calls stdout].
  replace (mkState (rng_pos st)
             ((calls st ++ call_os_makedirs output_folder
                 :: call_os_listdir input_folder :: probes ++ [call_cpu_count])
                ++ [call_Pool n])
             (stdout st)) with st1.
  - rewrite Hmap. reflexivity.
  - subst st1. f_equal. rewrite <- app_assoc. cbn. f_equal. f_equal.
    rewrite <- app_assoc. reflexivity.
Qed.

(** C2, on the code: with an empty input directory the task list is empty,
    [min(cpu_count(), 0)] is 0 and [Pool(processes=0)] raises [ValueError];
    [process_folder] ends with that exception and prints no summary. *)
Theorem empty_folder_raises_ValueError :
  process_folder Demo.empty_folder "input" "output" initial_state
  = (Raise (mkExc ValueError "Number of processes must be at least 1"),
     mkState 0
       [call_os_makedirs "output"; call_os_listdir "input"; call_cpu_count;
        call_Pool 0]
       []).
Proof. reflexivity. Qed.

(** C6: an entry that is not a regular file, whose classification returns
    nothing or whose classification raises gives no task; the enumeration
    calls only [os.path.isfile] and [imghdr.what] and prints nothing, and the
    rest of [process_folder] works on the task list alone. *)
Theorem enumeration_skips_silently (env : Env)
    (input_folder output_folder : string) (filenames : list string)
    (u : unit) st :
  os_makedirs env output_folder = Ret u ->
  os_listdir env input_folder = Ret filenames ->
  let image_files := tasks_of env input_folder output_folder filenames in
  let listed :=
    mkState (rng_pos st)
            (calls st ++ [call_os_makedirs output_folder;
                          call_os_listdir input_folder])
            (stdout st) in
  (forall filename,
      In filename filenames ->
      let input_path := os_path_join env input_folder filename in
      os_path_isfile env input_path = false
      \/ (exists image_type,
             imghdr_what env input_path = Ret image_type
             /\ truthy image_type = false)
      \/ (exists e, imghdr_what env input_path = Raise e) ->
      ~ In (input_path, output_folder) image_files)
  /\ exists probes,
       forallb is_probe probes = true
       /\ collect_image_files env input_folder output_folder filenames [] listed
          = (Ret image_files,
             mkState (rng_pos st) (calls listed ++ probes) (stdout st))
       /\ process_folder env input_folder output_folder st
          = (results <-
               with_ (Pool (Nat.min (cpu_count env) (List.length image_files)))
                     (fun _ => call call_Pool_terminate (Ret tt))
                     (fun pool => map_M (remove_all_metadata env) image_files) ;;
             print_summary results)
              (mkState (rng_pos st)
                       (calls listed ++ probes ++ [call_cpu_count])
                       (stdout st)).
Proof.
  intros Hmk Hls image_files listed. split.
  - intros filename Hin input_path Hskip Htask.
    apply tasks_of_recognized in Htask.
    destruct Htask as [filename' [_ [_ Hrec]]]. cbn [fst] in Hrec.
    unfold recognized in Hrec. apply andb_prop in Hrec.
    destruct Hrec as [Hfile Hwhat].
    destruct Hskip as [H | [[image_type [H Hfalse]] | [e H]]].
    + congruence.
    + rewrite H in Hwhat. congruence.
    + rewrite H in Hwhat. discriminate.
  - destruct (collect_image_files_run env input_folder output_folder filenames
                [] listed) as [probes [Hrun Hprobes]].
    exists probes. split; [exact Hprobes|]. split; [exact Hrun|].
    unfold process_folder.
    unfold bind at 1, call at 1. rewrite Hmk.
    unfold bind at 1, call at 1. rewrite Hls. cbn [rng_pos calls stdout].
    replace (mkState (rng_pos st)
               ((calls st ++ [call_os_makedirs output_folder])
                  ++ [call_os_listdir input_folder]) (stdout st))
      with listed by (subst listed; now rewrite <- app_assoc).
    rewrite (bind_Ret _ _ _ _ _ Hrun). cbn [app].
    unfold bind at 1, call at 1. cbn [rng_pos calls stdout].
    rewrite <- app_assoc. reflexivity.
Qed.

Lemma enumeration_skips_silently_witness :
  tasks_of Demo.healthy "input" "output" Demo.listing
    = [("input/cat.png", "output"); ("input/dog.jpg", "output")]
  /\ ~ In ("input/sub", "output")
          (tasks_of Demo.healthy "input" "output" Demo.listing)
  /\ ~ In ("input/empty.bin", "output")
          (tasks_of Demo.healthy "input" "output" Demo.listing)
  /\ ~ In ("input/locked.png", "output")
          (tasks_of Demo.healthy "input" "output" Demo.listing).
Proof.
  destruct (enumeration_skips_silently Demo.healthy "input" "output"
              Demo.listing tt initial_state eq_refl eq_refl) as [Hskip _].
  split; [reflexivity|]. split; [|split].
  - apply (Hskip "sub"); [cbn; tauto | left; reflexivity].
  - apply (Hskip "empty.bin"); [cbn; tauto|].
    right; left. exists None. split; reflexivity.
  - apply (Hskip "locked.png"); [cbn; tauto|].
    right; right. eexists. reflexivity.
Defined.

(** Equal lists up to the bracketing of [++]. *)
Ltac list_assoc :=
  repeat (rewrite <- ?app_assoc; cbn [app]); reflexivity.

Lemma probes_are_not_pool_starts (cs : list Call) :
  forallb is_probe cs = true -> forallb not_pool_start cs = true.
Proof.
  induction cs as [| c cs IH]; cbn; [reflexivity|].
  intros H. apply andb_prop in H. destruct H as [Hc Hcs].
  rewrite (IH Hcs). destruct c; cbn in *; try discriminate; reflexivity.
Qed.

(** C7: the pool is asked for [min(cpu_count(), len(image_files))] workers,
    which is at most the number of tasks, and [process_folder] asks for a
    pool once. *)
Theorem worker_count_is_min (env : Env) (input_folder output_folder : string)
    (filenames : list string) (u : unit) st :
  os_makedirs env output_folder = Ret u ->
  os_listdir env input_folder = Ret filenames ->
  let image_files := tasks_of env input_folder output_folder filenames in
  let num_processes := Nat.min (cpu_count env) (List.length image_files) in
  num_processes <= List.length image_files
  /\ num_processes <= cpu_count env
  /\ exists before after,
       calls (snd (process_folder env input_folder output_folder st))
         = (calls st ++ before ++ call_Pool num_processes :: after)%list
       /\ forallb not_pool_start before = true
       /\ forallb not_pool_start after = true.
Proof.
  intros Hmk Hls image_files num_processes.
  split; [apply Nat.le_min_r|]. split; [apply Nat.le_min_l|].
  destruct (Nat.le_gt_cases 1 num_processes) as [Hn | Hn].
  - destruct (process_folder_run env input_folder output_folder filenames u st
                Hmk Hls Hn) as [probes [results [st2 [Hprobes [Hmap Hrun]]]]].
    cbn zeta in Hmap. fold image_files in Hmap. fold num_processes in Hmap.
    match type of Hmap with
    | map_M _ _ ?s = _ =>
        destruct (pool_map_run env image_files s)
          as [results' [st2' [Hmap' [_ [_ [new [Hcalls [_ Hnew]]]]]]]]
    end.
    rewrite Hmap in Hmap'. injection Hmap' as Hres Hst. subst results' st2'.
    cbn [calls] in Hcalls.
    exists (call_os_makedirs output_folder :: call_os_listdir input_folder
              :: probes ++ [call_cpu_count])%list,
           (new ++ [call_Pool_terminate])%list.
    rewrite Hrun, print_summary_run. cbn [snd calls]. rewrite Hcalls.
    split; [|split].
    + list_assoc.
    + cbn. rewrite forallb_app, (probes_are_not_pool_starts _ Hprobes).
      reflexivity.
    + rewrite forallb_app, Hnew. reflexivity.
  - destruct (process_folder_enumerated env input_folder output_folder
                filenames u st Hmk Hls) as [probes [Hprobes Hrun]].
    cbn zeta in Hrun. fold image_files in Hrun. fold num_processes in Hrun.
    assert (H0 : num_processes = 0) by lia.
    exists (call_os_makedirs output_folder :: call_os_listdir input_folder
              :: probes ++ [call_cpu_count])%list, [].
    rewrite Hrun, H0.
    unfold bind at 1, with_ at 1, bind at 1, Pool, call at 1.
    cbn [Nat.ltb Nat.leb snd calls rng_pos stdout].
    split; [|split].
    + list_assoc.
    + cbn. rewrite forallb_app, (probes_are_not_pool_starts _ Hprobes).
      reflexivity.
    + reflexivity.
Qed.

Lemma worker_count_is_min_witness :
  exists before after,
    calls (snd (process_folder Demo.healthy "input" "output" initial_state))
      = (before ++ call_Pool 2 :: after)%list
    /\ forallb not_pool_start before = true
    /\ forallb not_pool_start after = true.
Proof.
  destruct (worker_count_is_min Demo.healthy "input" "output" Demo.listing tt
              initial_state eq_refl eq_refl)
    as [_ [_ [before [after [Hcalls [Hb Ha]]]]]].
  exists before, after. split; [exact Hcalls|]. now split.
Defined.

(** C10: the summary counts every collected result either as a success or as
    a failure, by its flag: the two printed counts add up to the printed
    total, the results are the successes and the failures put together, and
    every failed result has its line with its filename and error. *)
Theorem summary_counts_partition (results : list TaskResult) st :
  let successful := filter (fun r => success r) results in
  let failed := filter (fun r => negb (success r)) results in
  exists failure_lines,
    print_summary results st
    = (Ret tt,
       mkState (rng_pos st) (calls st)
         (stdout st
          ++ [newline ++ "Processing Summary:";
              "Total images processed: "
                ++ format_nat (List.length successful + List.length failed);
              "Successful: " ++ format_nat (List.length successful);
              "Failed: " ++ format_nat (List.length failed)]
          ++ failure_lines))
    /\ List.length successful + List.length failed = List.length results
    /\ Permutation results (successful ++ failed)
    /\ Forall (fun r => success r = true) successful
    /\ Forall (fun r => success r = false) failed
    /\ (forall r, In r failed ->
          In ("- " ++ input_filename r ++ ": " ++ format_opt (error_message r))
             failure_lines).
Proof.
  intros successful failed.
  exists (match failed with
          | [] => []
          | r :: rest =>
              (newline ++ "Failed Files:") :: map failure_line (r :: rest)
          end).
  split; [|split; [|split; [|split; [|split]]]].
  - rewrite print_summary_run. subst successful failed.
    rewrite filter_partition_length. reflexivity.
  - apply filter_partition_length.
  - apply filter_partition_permutation.
  - apply Forall_forall. intros r Hr. apply filter_In in Hr. tauto.
  - apply Forall_forall. intros r Hr. apply filter_In in Hr.
    destruct Hr as [_ Hr]. now apply negb_true_iff in Hr.
  - intros r Hr. destruct failed as [| r0 failed0] eqn:Hfailed; [contradiction|].
    right. apply in_map_iff. exists r. split; [reflexivity | exact Hr].
Qed.

(** * Further properties *)

(** ** The steps of [remove_all_metadata] one by one *)

Lemma after_calls_app (st : State) (cs ds : list Call) :
  after_calls (after_calls st cs) ds = after_calls st (cs ++ ds).
Proof. unfold after_calls. cbn. now rewrite app_assoc. Qed.

Lemma call_run {A : Type} (c : Call) (o : Outcome A) st :
  call c o st = (o, after_calls st [c]).
Proof. reflexivity. Qed.

(** State equalities between runs of calls. *)
Ltac calls_done :=
  unfold after_calls; cbn [rng_pos calls stdout];
  repeat (rewrite <- ?app_assoc; cbn [app]); reflexivity.

Lemma copy_pixels_open_raises (env : Env) (input_path output_path : string) st e :
  Image_open env input_path = Raise e ->
  copy_pixels env input_path output_path st
  = (Raise e, after_calls st [call_Image_open input_path]).
Proof.
  intros Hopen. unfold copy_pixels, with_, bind, call. rewrite Hopen.
  calls_done.
Qed.

Lemma copy_pixels_load_raises (env : Env) (input_path output_path : string) st
    img e :
  Image_open env input_path = Ret img ->
  load img = Raise e ->
  copy_pixels env input_path output_path st
  = (Raise e,
     after_calls st [call_Image_open input_path;
                     call_Image_getdata input_path;
                     call_Image_close input_path]).
Proof.
  intros Hopen Hload. unfold copy_pixels, with_, bind, call, raise.
  rewrite Hopen, Hload. calls_done.
Qed.

Lemma copy_pixels_new_raises (env : Env) (input_path output_path : string) st
    img data e :
  Image_open env input_path = Ret img ->
  load img = Ret data ->
  Image_new env (mode (header img)) (size (header img)) = Raise e ->
  copy_pixels env input_path output_path st
  = (Raise e,
     after_calls st [call_Image_open input_path;
                     call_Image_getdata input_path;
                     call_Image_new (mode (header img)) (size (header img));
                     call_Image_close input_path]).
Proof.
  intros Hopen Hload Hnew. unfold copy_pixels, with_, bind, call, raise.
  rewrite Hopen, Hload, Hnew. calls_done.
Qed.

Lemma copy_pixels_putdata_raises (env : Env) (input_path output_path : string)
    st img data buffer e :
  Image_open env input_path = Ret img ->
  load img = Ret data ->
  Image_new env (mode (header img)) (size (header img)) = Ret buffer ->
  Image_putdata env
    (mkImage (mode (header img)) (size (header img)) buffer []) data = Raise e ->
  copy_pixels env input_path output_path st
  = (Raise e,
     after_calls st [call_Image_open input_path;
                     call_Image_getdata input_path;
                     call_Image_new (mode (header img)) (size (header img));
                     call_Image_putdata data;
                     call_Image_close input_path]).
Proof.
  intros Hopen Hload Hnew Hput. unfold copy_pixels, with_, bind, call, raise.
  rewrite Hopen, Hload, Hnew. cbn [mode size info].
  rewrite Hput. calls_done.
Qed.

(** Once the pixels are in the new image, [save] is called with an image of
    the mode, size and pixels of the opened one and an empty [info]. *)
Lemma copy_pixels_saves (env : Env) (input_path output_path : string)
    st img data buffer (u : unit) :
  Image_open env input_path = Ret img ->
  load img = Ret data ->
  Image_new env (mode (header img)) (size (header img)) = Ret buffer ->
  Image_putdata env
    (mkImage (mode (header img)) (size (header img)) buffer []) data = Ret u ->
  copy_pixels env input_path output_path st
  = (Image_save env (mkImage (mode (header img)) (size (header img)) data [])
                output_path,
     after_calls st [call_Image_open input_path;
                     call_Image_getdata input_path;
                     call_Image_new (mode (header img)) (size (header img));
                     call_Image_putdata data;
                     call_Image_save
                       (mkImage (mode (header img)) (size (header img)) data [])
                       output_path;
                     call_Image_close input_path]).
Proof.
  intros Hopen Hload Hnew Hput. unfold copy_pixels, with_, bind, call, raise, ret.
  rewrite Hopen, Hload, Hnew. cbn [mode size info].
  rewrite Hput. cbn [mode size info].
  destruct (Image_save env _ output_path) as [[] | e]; calls_done.
Qed.

(** The clean-up steps: which calls are made, and how the steps end. *)
Lemma scrub_file_run (env : Env) (image_type : option string)
    (output_path : string) st :
  let strip :=
    if str_in (format_opt image_type) ["jpg"; "jpeg"]
    then [call_piexif_remove output_path] else [] in
  let xattr := call_subprocess_run ["xattr"; "-c"; output_path] in
  let utime := call_os_utime output_path (0, 0)%Z in
  scrub_file env image_type output_path st
  = if String.eqb (os_name env) "posix"
    then match subprocess_run env ["xattr"; "-c"; output_path] with
         | Ret _ => (Ret tt, after_calls st (strip ++ [xattr; utime]))
         | Raise e =>
             if except_CalledProcessError e
             then (Ret tt, after_calls st (strip ++ [xattr; utime]))
             else (Raise e, after_calls st (strip ++ [xattr]))
         end
    else (Ret tt, after_calls st (strip ++ [utime])).
Proof.
  cbn zeta.
  unfold scrub_file, bind, try_except, call, pass, ret, except_Exception.
  destruct (str_in (format_opt image_type) ["jpg"; "jpeg"]);
    destruct (String.eqb (os_name env) "posix");
    repeat step_run;
    repeat match goal with
      | H : (_, _) = (_, _) |- _ => injection H as ? ?; subst
      | u : unit |- _ => destruct u
      end;
    try discriminate; try congruence; try calls_done.
Qed.

(** A classified input: the name is drawn, the [with] block runs on the path
    made of it, the clean-up steps run if the block returned, and an
    exception of either is turned into a failure. *)
Lemma remove_all_metadata_classified_run (env : Env)
    (input_path output_folder : string) (image_type : option string) st :
  imghdr_what env input_path = Ret image_type ->
  truthy image_type = true ->
  exists name,
    String.length name = 20
    /\ forallb is_alnum (list_ascii_of_string name) = true
    /\ remove_all_metadata env (input_path, output_folder) st
       = let output_path :=
           os_path_join env output_folder
                        (name ++ "." ++ format_opt image_type) in
         let filename := os_path_basename env input_path in
         match copy_pixels env input_path output_path
                 (mkState (rng_pos st + 20)
                          (calls st ++ [call_imghdr_what input_path])
                          (stdout st)) with
         | (Raise e, st2) => (Ret (false, filename, Some (exc_str e)), st2)
         | (Ret _, st2) =>
             match scrub_file env image_type output_path st2 with
             | (Raise e, st3) => (Ret (false, filename, Some (exc_str e)), st3)
             | (Ret _, st3) => (Ret (true, filename, None), st3)
             end
         end.
Proof.
  intros Hwhat Htruthy.
  destruct (remove_all_metadata_try_classified env input_path output_folder
              image_type st Hwhat Htruthy) as [name [Hlen [Halnum Heq]]].
  exists name. split; [exact Hlen|]. split; [exact Halnum|].
  unfold remove_all_metadata, try_except. rewrite Heq. cbn zeta.
  unfold bind, ret, except_Exception.
  destruct (copy_pixels env input_path _ _) as [[u | e] st2]; [|reflexivity].
  destruct (scrub_file env image_type _ st2) as [[u' | e] st3]; reflexivity.
Qed.

Lemma remove_all_metadata_what_raises (env : Env)
    (input_path output_folder : string) st e :
  imghdr_what env input_path = Raise e ->
  remove_all_metadata env (input_path, output_folder) st
  = (Ret (false, os_path_basename env input_path, Some (exc_str e)),
     after_calls st [call_imghdr_what input_path]).
Proof.
  intros Hwhat.
  unfold remove_all_metadata, try_except, remove_all_metadata_try, bind, call.
  rewrite Hwhat. reflexivity.
Qed.

Lemma remove_all_metadata_unclassified (env : Env)
    (input_path output_folder : string) st image_type :
  imghdr_what env input_path = Ret image_type ->
  truthy image_type = false ->
  remove_all_metadata env (input_path, output_folder) st
  = (Ret (false, os_path_basename env input_path, Some unsupported_message),
     after_calls st [call_imghdr_what input_path]).
Proof.
  intros Hwhat Htruthy.
  unfold remove_all_metadata, try_except, remove_all_metadata_try, bind, call.
  rewrite Hwhat, Htruthy. reflexivity.
Qed.

Lemma truthy_Some (image_type : option string) :
  truthy image_type = true ->
  exists ty, image_type = Some ty /\ ty <> EmptyString
             /\ format_opt image_type = ty.
Proof.
  destruct image_type as [[| a s] |]; cbn; try discriminate.
  intros _. exists (String a s). repeat split. discriminate.
Qed.

Lemma makes_only_touches_copy_pixels (env : Env) (input_path output_path : string) :
  makes_only (touches_only input_path output_path)
             (copy_pixels env input_path output_path).
Proof.
  unfold copy_pixels. apply makes_only_with; intros.
  - apply makes_only_call. cbn. apply String.eqb_refl.
  - apply makes_only_call. cbn. apply String.eqb_refl.
  - apply makes_only_bind;
      [apply makes_only_call; cbn; apply String.eqb_refl | intros].
    apply makes_only_bind; [now apply makes_only_call | intros].
    apply makes_only_bind; [now apply makes_only_call | intros].
    apply makes_only_call. cbn. now rewrite String.eqb_refl.
Qed.

Lemma makes_only_touches_scrub_file (env : Env) (image_type : option string)
    (input_path output_path : string) :
  makes_only (touches_only input_path output_path)
             (scrub_file env image_type output_path).
Proof.
  unfold scrub_file, pass.
  apply makes_only_bind; [|intros; apply makes_only_bind; [|intros]].
  - destruct (str_in _ _); auto with footprint.
    apply makes_only_try_except; auto with footprint.
    apply makes_only_call. cbn. apply String.eqb_refl.
  - destruct (String.eqb _ _); auto with footprint.
    apply makes_only_try_except; auto with footprint.
    apply makes_only_call. cbn. apply String.eqb_refl.
  - apply makes_only_try_except; auto with footprint.
    apply makes_only_call. cbn. now rewrite String.eqb_refl.
Qed.

(** X5: after classifying its input, [remove_all_metadata] opens, reads and
    closes the input file and nothing else of it; every other file call
    (save, metadata strip, [xattr -c], timestamp reset to (0, 0)) is on the
    one path made of the output folder, the 20-character name and the
    detected format; and the function prints nothing. *)
Theorem sanitizer_touches_only_its_output (env : Env)
    (input_path output_folder : string) st :
  exists rest,
    calls (snd (remove_all_metadata env (input_path, output_folder) st))
      = (calls st ++ call_imghdr_what input_path :: rest)%list
    /\ stdout (snd (remove_all_metadata env (input_path, output_folder) st))
       = stdout st
    /\ (rest = []
        \/ exists name image_type,
             imghdr_what env input_path = Ret (Some image_type)
             /\ String.length name = 20
             /\ forallb (touches_only input_path
                           (os_path_join env output_folder
                                         (name ++ "." ++ image_type)))
                        rest = true).
Proof.
  destruct (imghdr_what env input_path) as [image_type | e] eqn:Hwhat.
  - destruct (truthy image_type) eqn:Htruthy.
    + destruct (remove_all_metadata_classified_run env input_path output_folder
                  image_type st Hwhat Htruthy) as [name [Hlen [_ Hrun]]].
      destruct (truthy_Some image_type Htruthy) as [ty [Hty [_ Hfmt]]].
      rewrite Hfmt in Hrun. cbn zeta in Hrun.
      set (output_path := os_path_join env output_folder (name ++ "." ++ ty)) in *.
      set (st1 := mkState (rng_pos st + 20)
                    (calls st ++ [call_imghdr_what input_path]) (stdout st)) in *.
      destruct (makes_only_touches_copy_pixels env input_path output_path st1)
        as [Hout1 [new1 [Hcalls1 Hnew1]]].
      destruct (copy_pixels env input_path output_path st1) as [[u | e] st2].
      * destruct (makes_only_touches_scrub_file env image_type input_path
                    output_path st2) as [Hout2 [new2 [Hcalls2 Hnew2]]].
        cbn [snd] in *.
        exists (new1 ++ new2)%list.
        assert (Hst : snd (remove_all_metadata env (input_path, output_folder) st)
                      = snd (scrub_file env image_type output_path st2)).
        { rewrite Hrun.
          destruct (scrub_file env image_type output_path st2) as [[u' | e] st3];
            reflexivity. }
        rewrite Hst, Hcalls2, Hout2, Hcalls1, Hout1. subst st1. cbn [calls stdout].
        split; [list_assoc|]. split; [reflexivity|].
        right. exists name, ty. subst image_type.
        split; [reflexivity|]. split; [exact Hlen|].
        fold output_path. rewrite forallb_app, Hnew1, Hnew2. reflexivity.
      * cbn [snd] in *. exists new1. rewrite Hrun. cbn [snd].
        rewrite Hcalls1, Hout1. subst st1. cbn [calls stdout].
        split; [list_assoc|]. split; [reflexivity|].
        right. exists name, ty. subst image_type.
        split; [reflexivity|]. split; [exact Hlen | exact Hnew1].
    + exists []. rewrite (remove_all_metadata_unclassified _ _ _ _ _ Hwhat Htruthy).
      cbn. repeat split. now left.
  - exists []. rewrite (remove_all_metadata_what_raises _ _ _ _ _ Hwhat).
    cbn. repeat split. now left.
Qed.

(** Membership in a list of calls given by its parts. *)
Ltac in_calls :=
  repeat match goal with
    | H : In _ (_ ++ _) |- _ => apply in_app_or in H; destruct H as [H | H]
    | H : In _ (_ :: _) |- _ => destruct H as [H | H]; [try discriminate H|]
    | H : In _ [] |- _ => destruct H
    | H : In _ (if ?b then _ else _) |- _ => destruct b
    end.

Lemma copy_pixels_decoded (env : Env) (input_path output_path : string) st
    img data :
  decodes env input_path img data ->
  copy_pixels env input_path output_path st
  = (Image_save env (rebuilt img data) output_path,
     after_calls st [call_Image_open input_path;
                     call_Image_getdata input_path;
                     call_Image_new (mode (header img)) (size (header img));
                     call_Image_putdata data;
                     call_Image_save (rebuilt img data) output_path;
                     call_Image_close input_path]).
Proof.
  intros [Hopen [Hload [buffer [u [Hnew Hput]]]]].
  exact (copy_pixels_saves env input_path output_path st img data buffer u
           Hopen Hload Hnew Hput).
Qed.

(** X6: whenever [remove_all_metadata] calls [save], the image it saves has
    the mode, the size and the decoded pixels of the opened input, and an
    empty [info]: nothing else of the input reaches the output. *)
Theorem saved_image_is_pixels_only (env : Env)
    (input_path output_folder : string) st saved path :
  In (call_Image_save saved path)
     (calls (snd (remove_all_metadata env (input_path, output_folder) st))) ->
  In (call_Image_save saved path) (calls st)
  \/ exists img,
       Image_open env input_path = Ret img
       /\ mode saved = mode (header img)
       /\ size saved = size (header img)
       /\ load img = Ret (im_data saved)
       /\ info saved = [].
Proof.
  intros Hin.
  destruct (imghdr_what env input_path) as [image_type | e] eqn:Hwhat.
  - destruct (truthy image_type) eqn:Htruthy.
    + destruct (remove_all_metadata_classified_run env input_path output_folder
                  image_type st Hwhat Htruthy) as [name [_ [_ Hrun]]].
      rewrite Hrun in Hin. clear Hrun. cbn zeta in Hin.
      destruct (Image_open env input_path) as [img | e] eqn:Hopen.
      2:{ rewrite (copy_pixels_open_raises _ _ _ _ _ Hopen) in Hin.
          cbn in Hin. in_calls. now left. }
      destruct (load img) as [data | e] eqn:Hload.
      2:{ rewrite (copy_pixels_load_raises _ _ _ _ _ _ Hopen Hload) in Hin.
          cbn in Hin. in_calls. now left. }
      destruct (Image_new env (mode (header img)) (size (header img)))
        as [buffer | e] eqn:Hnew.
      2:{ rewrite (copy_pixels_new_raises _ _ _ _ _ _ _ Hopen Hload Hnew) in Hin.
          cbn in Hin. in_calls. now left. }
      destruct (Image_putdata env
                  (mkImage (mode (header img)) (size (header img)) buffer [])
                  data) as [u | e] eqn:Hput.
      2:{ rewrite (copy_pixels_putdata_raises _ _ _ _ _ _ _ _ Hopen Hload Hnew
                     Hput) in Hin.
          cbn in Hin. in_calls. now left. }
      rewrite (copy_pixels_saves _ _ _ _ _ _ _ _ Hopen Hload Hnew Hput) in Hin.
      assert (Hsaved : forall p,
                 call_Image_save
                   (mkImage (mode (header img)) (size (header img)) data []) p
                 = call_Image_save saved path ->
                 exists img0,
                   Ret img = Ret img0
                   /\ mode saved = mode (header img0)
                   /\ size saved = size (header img0)
                   /\ load img0 = Ret (im_data saved)
                   /\ info saved = []).
      { intros p Heq. injection Heq as Hs _. subst saved. exists img.
        cbn. now repeat split. }
      destruct (Image_save env _ _) as [u' | e].
      * rewrite scrub_file_run in Hin. cbn zeta in Hin.
        destruct (String.eqb (os_name env) "posix");
          [destruct (subprocess_run env _) as [u'' | e];
           [|destruct (except_CalledProcessError e)]|];
          cbn in Hin; in_calls; try (now left); right; eauto.
      * cbn in Hin. in_calls; try (now left); right; eauto.
    + rewrite (remove_all_metadata_unclassified _ _ _ _ _ Hwhat Htruthy) in Hin.
      cbn in Hin. in_calls. now left.
  - rewrite (remove_all_metadata_what_raises _ _ _ _ _ Hwhat) in Hin.
    cbn in Hin. in_calls. now left.
Qed.

Lemma saved_image_is_pixels_only_witness :
  exists saved,
    In (call_Image_save saved "output/aiqzHQY7fowFNW4dluCL.png")
       (calls (snd (remove_all_metadata Demo.healthy ("input/cat.png", "output")
                                        initial_state)))
    /\ info saved = []
    /\ load Demo.picture = Ret (im_data saved)
    /\ info (header Demo.picture) <> [].
Proof.
  exists (rebuilt Demo.picture [[255; 0; 0]; [0; 0; 255]]%Z).
  assert (Hin : In (call_Image_save
                      (rebuilt Demo.picture [[255; 0; 0]; [0; 0; 255]]%Z)
                      "output/aiqzHQY7fowFNW4dluCL.png")
                   (calls (snd (remove_all_metadata Demo.healthy
                                  ("input/cat.png", "output") initial_state)))).
  { vm_compute. do 5 right. left. reflexivity. }
  split; [exact Hin|].
  destruct (saved_image_is_pixels_only Demo.healthy "input/cat.png" "output"
              initial_state _ _ Hin) as [Hold | [img [_ [_ [_ [_ Hinfo]]]]]].
  - destruct Hold.
  - split; [exact Hinfo|]. split; [reflexivity | discriminate].
Defined.

(** X7: a classified input that cannot be opened, or whose pixel data cannot
    be decoded, is reported as a failure with the text of that error; nothing
    is saved and no clean-up step runs, and a file that was opened is closed
    again. *)
Theorem undecodable_input_is_not_written (env : Env)
    (input_path output_folder : string) (image_type : option string) st e :
  imghdr_what env input_path = Ret image_type ->
  truthy image_type = true ->
  Image_open env input_path = Raise e
  \/ (exists img, Image_open env input_path = Ret img /\ load img = Raise e) ->
  exists rest,
    remove_all_metadata env (input_path, output_folder) st
    = (Ret (false, os_path_basename env input_path, Some (exc_str e)),
       mkState (rng_pos st + 20)
               (calls st ++ call_imghdr_what input_path :: rest)
               (stdout st))
    /\ forallb (fun c => negb (is_save c || is_cleanup c)) rest = true
    /\ (rest = [call_Image_open input_path]
        \/ rest = [call_Image_open input_path; call_Image_getdata input_path;
                   call_Image_close input_path]).
Proof.
  intros Hwhat Htruthy Hfail.
  destruct (remove_all_metadata_classified_run env input_path output_folder
              image_type st Hwhat Htruthy) as [name [_ [_ Hrun]]].
  cbn zeta in Hrun.
  destruct Hfail as [Hopen | [img [Hopen Hload]]].
  - rewrite (copy_pixels_open_raises _ _ _ _ _ Hopen) in Hrun.
    exists [call_Image_open input_path]. rewrite Hrun.
    split; [f_equal; calls_done|]. split; [reflexivity | now left].
  - rewrite (copy_pixels_load_raises _ _ _ _ _ _ Hopen Hload) in Hrun.
    exists [call_Image_open input_path; call_Image_getdata input_path;
            call_Image_close input_path].
    rewrite Hrun.
    split; [f_equal; calls_done|]. split; [reflexivity | now right].
Qed.

Lemma undecodable_input_is_not_written_witness :
  remove_all_metadata Faults.truncated ("input/cat.png", "output") initial_state
  = (Ret (false, "cat.png", Some "image file is truncated"),
     mkState 20
       [call_imghdr_what "input/cat.png"; call_Image_open "input/cat.png";
        call_Image_getdata "input/cat.png"; call_Image_close "input/cat.png"]
       []).
Proof.
  destruct (undecodable_input_is_not_written Faults.truncated "input/cat.png"
              "output" (Some "png") initial_state
              (mkExc OSError "image file is truncated") eq_refl eq_refl)
    as [rest [Hrun _]].
  - right. eexists. split; reflexivity.
  - vm_compute. reflexivity.
Defined.

(** X11: what a success stands for.  The input was classified, opened and
    decoded, the rebuilt image was saved without an error under the random
    name, and the calls of the run are, in this order: the seven of
    classification and copy, [piexif.remove] exactly for the formats [jpg]
    and [jpeg], the [xattr] command exactly on a POSIX host, and the
    timestamp reset to (0, 0). *)
Theorem success_means_saved_and_scrubbed (env : Env)
    (input_path output_folder : string) st r st' :
  remove_all_metadata env (input_path, output_folder) st = (Ret r, st') ->
  success r = true ->
  exists name image_type img data,
    imghdr_what env input_path = Ret (Some image_type)
    /\ String.length name = 20
    /\ Image_open env input_path = Ret img
    /\ load img = Ret data
    /\ let output_path :=
         os_path_join env output_folder (name ++ "." ++ image_type) in
       Image_save env (rebuilt img data) output_path = Ret tt
       /\ calls st'
          = (calls st
             ++ [call_imghdr_what input_path;
                 call_Image_open input_path;
                 call_Image_getdata input_path;
                 call_Image_new (mode (header img)) (size (header img));
                 call_Image_putdata data;
                 call_Image_save (rebuilt img data) output_path;
                 call_Image_close input_path]
             ++ (if str_in image_type ["jpg"; "jpeg"]
                 then [call_piexif_remove output_path] else [])
             ++ (if String.eqb (os_name env) "posix"
                 then [call_subprocess_run ["xattr"; "-c"; output_path]]
                 else [])
             ++ [call_os_utime output_path (0, 0)%Z])%list.
Proof.
  intros Hrun Hsuccess.
  destruct (imghdr_what env input_path) as [image_type | e] eqn:Hwhat.
  2:{ rewrite (remove_all_metadata_what_raises _ _ _ _ _ Hwhat) in Hrun.
      injection Hrun as Hr _. subst r. discriminate. }
  destruct (truthy image_type) eqn:Htruthy.
  2:{ rewrite (remove_all_metadata_unclassified _ _ _ _ _ Hwhat Htruthy) in Hrun.
      injection Hrun as Hr _. subst r. discriminate. }
  destruct (remove_all_metadata_classified_run env input_path output_folder
              image_type st Hwhat Htruthy) as [name [Hlen [_ Heq]]].
  destruct (truthy_Some image_type Htruthy) as [ty [Hty [_ Hfmt]]].
  rewrite Heq in Hrun. clear Heq. cbn zeta in Hrun. rewrite Hfmt in Hrun.
  set (output_path := os_path_join env output_folder (name ++ "." ++ ty)) in *.
  destruct (Image_open env input_path) as [img | e] eqn:Hopen.
  2:{ rewrite (copy_pixels_open_raises _ _ _ _ _ Hopen) in Hrun.
      injection Hrun as Hr _. subst r. discriminate. }
  destruct (load img) as [data | e] eqn:Hload.
  2:{ rewrite (copy_pixels_load_raises _ _ _ _ _ _ Hopen Hload) in Hrun.
      injection Hrun as Hr _. subst r. discriminate. }
  destruct (Image_new env (mode (header img)) (size (header img)))
    as [buffer | e] eqn:Hnew.
  2:{ rewrite (copy_pixels_new_raises _ _ _ _ _ _ _ Hopen Hload Hnew) in Hrun.
      injection Hrun as Hr _. subst r. discriminate. }
  destruct (Image_putdata env
              (mkImage (mode (header img)) (size (header img)) buffer []) data)
    as [u | e] eqn:Hput.
  2:{ rewrite (copy_pixels_putdata_raises _ _ _ _ _ _ _ _ Hopen Hload Hnew Hput)
        in Hrun.
      injection Hrun as Hr _. subst r. discriminate. }
  rewrite (copy_pixels_saves _ _ _ _ _ _ _ _ Hopen Hload Hnew Hput) in Hrun.
  fold (rebuilt img data) in Hrun.
  exists name, ty, img, data. subst image_type.
  split; [reflexivity|]. split; [exact Hlen|].
  split; [reflexivity|]. split; [exact Hload|]. lazy zeta. fold output_path.
  destruct (Image_save env (rebuilt img data) output_path) as [[] | e].
  2:{ injection Hrun as Hr _. subst r. discriminate. }
  split; [reflexivity|].
  rewrite scrub_file_run in Hrun. lazy zeta in Hrun.
  change (format_opt (Some ty)) with ty in Hrun.
  destruct (str_in ty ["jpg"; "jpeg"]);
    destruct (String.eqb (os_name env) "posix");
    try destruct (subprocess_run env ["xattr"; "-c"; output_path]) as [u' | e];
    try destruct (except_CalledProcessError e);
    injection Hrun as Hr Hst; subst r st'; try discriminate Hsuccess;
    unfold after_calls; cbn [calls]; list_assoc.
Qed.

Lemma success_means_saved_and_scrubbed_witness :
  exists name img data,
    String.length name = 20
    /\ Image_open Faults.windows "input/dog.jpg" = Ret img
    /\ calls (snd (remove_all_metadata Faults.windows ("input/dog.jpg", "output")
                                       initial_state))
       = [call_imghdr_what "input/dog.jpg";
          call_Image_open "input/dog.jpg";
          call_Image_getdata "input/dog.jpg";
          call_Image_new (mode (header img)) (size (header img));
          call_Image_putdata data;
          call_Image_save (rebuilt img data)
                          (posixpath.join "output" (name ++ ".jpeg"));
          call_Image_close "input/dog.jpg";
          call_piexif_remove (posixpath.join "output" (name ++ ".jpeg"));
          call_os_utime (posixpath.join "output" (name ++ ".jpeg")) (0, 0)%Z].
Proof.
  destruct (remove_all_metadata Faults.windows ("input/dog.jpg", "output")
                                initial_state) as [[r | e] st'] eqn:Hrun;
    [|vm_compute in Hrun; discriminate Hrun].
  assert (Hr : r = (true, "dog.jpg", None)).
  { vm_compute in Hrun. injection Hrun as Hr _. now subst r. }
  destruct (success_means_saved_and_scrubbed Faults.windows "input/dog.jpg"
              "output" initial_state r st' Hrun)
    as [name [ty [img [data [Hwhat [Hlen [Hopen [_ [_ Hcalls]]]]]]]]].
  - subst r. reflexivity.
  - assert (Hty : ty = "jpeg").
    { vm_compute in Hwhat. injection Hwhat as Hty. now subst ty. }
    subst ty. exists name, img, data.
    split; [exact Hlen|]. split; [exact Hopen|]. exact Hcalls.
Defined.

(** ** [random_string] character by character *)

Lemma get_join_chars (cs : list ascii) (i : nat) :
  String.get i (join_chars cs) = nth_error cs i.
Proof.
  unfold join_chars. revert i.
  induction cs as [| c cs IH]; intros [| i]; cbn; auto.
Qed.

Lemma random_choices_nth (env : Env) (population : string) (k : nat) st :
  (0 < String.length population)%nat ->
  exists cs,
    random_choices env population k st
      = (Ret cs, mkState (rng_pos st + k) (calls st) (stdout st))
    /\ List.length cs = k
    /\ forall i, (i < k)%nat ->
         nth_error cs i
         = String.get
             (choice_index (random_source env (rng_pos st + i) mod 2 ^ 53)
                           (String.length population))
             population.
Proof.
  intros Hpop. revert st. induction k as [| k IH]; intros st; cbn [random_choices].
  - exists []. rewrite Nat.add_0_r. destruct st; cbn.
    repeat split. intros i Hi. lia.
  - unfold bind at 1. cbn [random_random].
    destruct (get_in_range population
                (choice_index (random_source env (rng_pos st) mod 2 ^ 53)
                              (String.length population)))
      as [c [Hget _]]; [now apply choice_index_in_range|].
    unfold bind at 1, str_index. rewrite Hget. cbn [ret].
    destruct (IH (mkState (S (rng_pos st)) (calls st) (stdout st)))
      as [cs [Hrun [Hlen Hnth]]].
    unfold bind at 1. rewrite Hrun. cbn [ret rng_pos calls stdout].
    exists (c :: cs). rewrite <- Nat.add_succ_comm. repeat split.
    + cbn. now rewrite Hlen.
    + intros [| i] Hi; cbn [nth_error].
      * rewrite Nat.add_0_r. now rewrite Hget.
      * rewrite (Hnth i) by lia. cbn [rng_pos].
        now rewrite Nat.add_succ_comm.
Qed.

(** X1: for every length, [random_string] returns a string of exactly that
    many ASCII letters and digits, raises nothing and makes no library call;
    it draws one value of the generator per character, and the i-th
    character is the one the i-th drawn value selects in
    [ascii_letters + digits]. *)
Theorem random_string_draws_each_character (env : Env) (length : nat) st :
  exists name,
    random_string env length st
      = (Ret name, mkState (rng_pos st + length) (calls st) (stdout st))
    /\ String.length name = length
    /\ forallb is_alnum (list_ascii_of_string name) = true
    /\ forall i, (i < length)%nat ->
         String.get i name
         = String.get
             (choice_index (random_source env (rng_pos st + i) mod 2 ^ 53) 62)
             (ascii_letters ++ digits).
Proof.
  destruct (random_string_run env length st) as [name [Hrun [Hlen Halnum]]].
  exists name. split; [exact Hrun|]. split; [exact Hlen|].
  split; [exact Halnum|].
  destruct (random_choices_nth env (ascii_letters ++ digits) length st)
    as [cs [Hcs [_ Hnth]]]; [cbn; lia|].
  unfold random_string in Hrun. rewrite (bind_Ret _ _ _ _ _ Hcs) in Hrun.
  unfold ret in Hrun. injection Hrun as Hname. subst name.
  intros i Hi. rewrite get_join_chars. exact (Hnth i Hi).
Qed.

(** ** [process_folder] and [main] from the outside *)

(** X2: when the output folder cannot be created, or the input folder cannot
    be listed, [process_folder] ends with that exception at once: no entry is
    examined, no pool is started, no image is touched and nothing is
    printed. *)
Theorem setup_failure_stops_process_folder (env : Env)
    (input_folder output_folder : string) st e :
  os_makedirs env output_folder = Raise e
  \/ (exists u, os_makedirs env output_folder = Ret u
                /\ os_listdir env input_folder = Raise e) ->
  exists setup,
    process_folder env input_folder output_folder st
    = (Raise e, after_calls st setup)
    /\ forallb (fun c => negb (is_processing c)) setup = true
    /\ (os_makedirs env output_folder = Raise e ->
        setup = [call_os_makedirs output_folder]).
Proof.
  intros [Hmk | [u [Hmk Hls]]].
  - exists [call_os_makedirs output_folder].
    unfold process_folder, bind, call. rewrite Hmk.
    split; [reflexivity|]. split; reflexivity.
  - exists [call_os_makedirs output_folder; call_os_listdir input_folder].
    unfold process_folder. unfold bind at 1, call at 1. rewrite Hmk.
    unfold bind at 1, call at 1. rewrite Hls.
    split; [f_equal; calls_done|]. split; [reflexivity|].
    intros H. congruence.
Qed.

Lemma setup_failure_stops_process_folder_witness :
  process_folder Faults.read_only "input" "output" initial_state
  = (Raise (mkExc OSError "[Errno 30] Read-only file system: 'output'"),
     mkState 0 [call_os_makedirs "output"] [])
  /\ exists setup,
       process_folder Demo.healthy "missing" "output" initial_state
       = (Raise (mkExc FileNotFoundError
                       "[Errno 2] No such file or directory: 'missing'"),
          after_calls initial_state setup)
       /\ forallb (fun c => negb (is_processing c)) setup = true.
Proof.
  split.
  - destruct (setup_failure_stops_process_folder Faults.read_only "input"
                "output" initial_state
                (mkExc OSError "[Errno 30] Read-only file system: 'output'"))
      as [setup [Hrun [_ Hsetup]]]; [left; reflexivity|].
    rewrite Hrun, (Hsetup eq_refl). reflexivity.
  - destruct (setup_failure_stops_process_folder Demo.healthy "missing"
                "output" initial_state
                (mkExc FileNotFoundError
                       "[Errno 2] No such file or directory: 'missing'"))
      as [setup [Hrun [Hnone _]]].
    + right. exists tt. split; reflexivity.
    + exists setup. split; [exact Hrun | exact Hnone].
Defined.

Lemma tasks_of_none (env : Env) (input_folder output_folder : string)
    (filenames : list string) :
  (forall filename,
      In filename filenames ->
      recognized env (os_path_join env input_folder filename) = false) ->
  tasks_of env input_folder output_folder filenames = [].
Proof.
  intros Hnone. unfold tasks_of.
  induction filenames as [| filename rest IH]; cbn; [reflexivity|].
  rewrite (Hnone filename) by now left.
  apply IH. intros f Hf. apply Hnone. now right.
Qed.

(** X3: a listing without any recognized image (text files, sub-directories,
    unreadable files, or nothing at all) ends [process_folder] with the
    [ValueError] of [Pool(processes=0)]: the entries have been examined, no
    worker has run and no summary is printed. *)
Theorem folder_without_images_raises (env : Env)
    (input_folder output_folder : string) (filenames : list string)
    (u : unit) st :
  os_makedirs env output_folder = Ret u ->
  os_listdir env input_folder = Ret filenames ->
  (forall filename,
      In filename filenames ->
      recognized env (os_path_join env input_folder filename) = false) ->
  exists probes,
    forallb is_probe probes = true
    /\ process_folder env input_folder output_folder st
       = (Raise (mkExc ValueError "Number of processes must be at least 1"),
          after_calls st
            (call_os_makedirs output_folder :: call_os_listdir input_folder
               :: probes ++ [call_cpu_count; call_Pool 0])).
Proof.
  intros Hmk Hls Hnone.
  destruct (process_folder_enumerated env input_folder output_folder filenames
              u st Hmk Hls) as [probes [Hprobes Hrun]].
  exists probes. split; [exact Hprobes|].
  rewrite Hrun, (tasks_of_none _ _ _ _ Hnone). cbn [List.length].
  rewrite Nat.min_0_r. cbn zeta.
  unfold bind at 1, with_ at 1, bind at 1, Pool, call at 1.
  cbn [Nat.ltb Nat.leb]. f_equal. calls_done.
Qed.

Lemma folder_without_images_raises_witness :
  fst (process_folder
         (Demo.env ["notes.txt"; "sub"; "locked.png"; "empty.bin"]
                   (Ret tt) (Ret tt))
         "input" "output" initial_state)
  = Raise (mkExc ValueError "Number of processes must be at least 1").
Proof.
  destruct (folder_without_images_raises
              (Demo.env ["notes.txt"; "sub"; "locked.png"; "empty.bin"]
                        (Ret tt) (Ret tt))
              "input" "output" ["notes.txt"; "sub"; "locked.png"; "empty.bin"]
              tt initial_state eq_refl eq_refl) as [probes [_ Hrun]].
  - intros filename Hin. cbn in Hin.
    destruct Hin as [H | [H | [H | [H | []]]]]; subst filename; reflexivity.
  - rewrite Hrun. reflexivity.
Defined.

(** With a task and a processor, [process_folder] returns and prints the
    summary of as many results as there are tasks. *)
Lemma process_folder_returns (env : Env) (input_folder output_folder : string)
    (filenames : list string) (u : unit) st :
  os_makedirs env output_folder = Ret u ->
  os_listdir env input_folder = Ret filenames ->
  tasks_of env input_folder output_folder filenames <> [] ->
  1 <= cpu_count env ->
  exists results st',
    process_folder env input_folder output_folder st = (Ret tt, st')
    /\ Forall2 (fun task r => input_filename r = os_path_basename env (fst task))
               (tasks_of env input_folder output_folder filenames) results
    /\ stdout st'
       = (stdout st
          ++ [(newline ++ "Processing Summary:")%string;
              ("Total images processed: "
                 ++ format_nat (List.length results))%string;
              ("Successful: "
                 ++ format_nat
                      (List.length (filter (fun r => success r) results)))%string;
              ("Failed: "
                 ++ format_nat
                      (List.length
                         (filter (fun r => negb (success r)) results)))%string]
          ++ match filter (fun r => negb (success r)) results with
             | [] => []
             | failed =>
                 (newline ++ "Failed Files:")%string :: map failure_line failed
             end)%list.
Proof.
  intros Hmk Hls Hne Hcpu.
  assert (Hn : 1 <= Nat.min (cpu_count env)
                      (List.length
                         (tasks_of env input_folder output_folder filenames))).
  { apply Nat.min_glb; [exact Hcpu|].
    destruct (tasks_of env input_folder output_folder filenames);
      [contradiction | cbn; lia]. }
  destruct (process_folder_run env input_folder output_folder filenames u st
              Hmk Hls Hn) as [probes [results [st2 [_ [Hmap Hrun]]]]].
  cbn zeta in Hmap.
  match type of Hmap with
  | map_M _ _ ?s = _ =>
      destruct (pool_map_run env
                  (tasks_of env input_folder output_folder filenames) s)
        as [results' [st2' [Hmap' [Hall [Hout _]]]]]
  end.
  rewrite Hmap in Hmap'. injection Hmap' as Hres Hst. subst results' st2'.
  rewrite print_summary_run in Hrun.
  eexists results, _. split; [exact Hrun|]. split.
  - eapply Forall2_impl; [|exact Hall]. cbn beta. intros task r [H _]. exact H.
  - cbn [stdout]. rewrite Hout. reflexivity.
Qed.

(** X4: what a run of [main] prints.  The first line is the start banner.
    When the input folder holds no recognized image, [main] ends there with
    the [ValueError] of the pool; otherwise it prints the summary of one
    result per recognized entry, whether the images succeeded or failed, and
    the completion banner last. *)
Theorem main_prints_banners_around_the_summary (env : Env)
    (filenames : list string) (u : unit) st :
  os_makedirs env "output" = Ret u ->
  os_listdir env "input" = Ret filenames ->
  1 <= cpu_count env ->
  let image_files := tasks_of env "input" "output" filenames in
  let banner := "Starting comprehensive metadata removal from: input" in
  exists st',
    (image_files = []
     /\ main env st
        = (Raise (mkExc ValueError "Number of processes must be at least 1"), st')
     /\ stdout st' = (stdout st ++ [banner])%list)
    \/ (image_files <> []
        /\ main env st = (Ret tt, st')
        /\ exists successes failures failure_lines,
             successes + failures = List.length image_files
             /\ List.length failure_lines
                = (if Nat.eqb failures 0 then 0 else S failures)
             /\ stdout st'
                = (stdout st
                   ++ [banner;
                       (newline ++ "Processing Summary:")%string;
                       ("Total images processed: "
                          ++ format_nat (List.length image_files))%string;
                       ("Successful: " ++ format_nat successes)%string;
                       ("Failed: " ++ format_nat failures)%string]
                   ++ failure_lines
                   ++ ["Completed. Cleaned images saved to: output"])%list).
Proof.
  intros Hmk Hls Hcpu image_files banner.
  set (st0 := mkState (rng_pos st) (calls st) (stdout st ++ [banner])).
  assert (Hmain : main env st
                  = (process_folder env "input" "output" ;;;
                     print "Completed. Cleaned images saved to: output") st0).
  { reflexivity. }
  destruct image_files as [| task rest] eqn:Htasks.
  - destruct (process_folder_without_images env "input" "output" filenames u st0
                Hmk Hls Htasks) as [st' [Hrun Hout]].
    exists st'. left. split; [reflexivity|].
    rewrite Hmain, (bind_Raise _ _ _ _ _ Hrun). split; [reflexivity|].
    rewrite Hout. reflexivity.
  - assert (Hne : tasks_of env "input" "output" filenames <> []).
    { fold image_files. rewrite Htasks. discriminate. }
    destruct (process_folder_returns env "input" "output" filenames u st0
                Hmk Hls Hne Hcpu) as [results [st1 [Hrun [Hall Hout]]]].
    eexists. right. split; [discriminate|].
    rewrite Hmain, (bind_Ret _ _ _ _ _ Hrun). split; [reflexivity|].
    exists (List.length (filter (fun r => success r) results)),
           (List.length (filter (fun r => negb (success r)) results)),
           (match filter (fun r => negb (success r)) results with
            | [] => []
            | failed =>
                (newline ++ "Failed Files:")%string :: map failure_line failed
            end).
    assert (Hlen : List.length results = List.length (task :: rest)).
    { rewrite <- Htasks. symmetry. exact (Forall2_length Hall). }
    split; [rewrite filter_partition_length; exact Hlen|]. split.
    + destruct (filter (fun r => negb (success r)) results); cbn;
        [reflexivity | now rewrite length_map].
    + cbn [print stdout]. rewrite Hout, Hlen. subst st0. cbn [stdout].
      list_assoc.
Qed.

Lemma main_prints_banners_around_the_summary_witness :
  stdout (snd (main Demo.without_xattr initial_state))
  = ["Starting comprehensive metadata removal from: input";
     newline ++ "Processing Summary:"; "Total images processed: 2";
     "Successful: 0"; "Failed: 2"; newline ++ "Failed Files:";
     "- cat.png: [Errno 2] No such file or directory: 'xattr'";
     "- dog.jpg: [Errno 2] No such file or directory: 'xattr'";
     "Completed. Cleaned images saved to: output"].
Proof.
  destruct (main_prints_banners_around_the_summary Demo.without_xattr
              Demo.listing tt initial_state eq_refl eq_refl)
    as [st' [[Hnone _] | [_ [Hrun _]]]].
  - cbn. lia.
  - discriminate Hnone.
  - vm_compute. reflexivity.
Defined.

(** ** Names on a POSIX host *)

Lemma length_append (a b : string) :
  String.length (a ++ b) = String.length a + String.length b.
Proof. induction a as [| c a IH]; cbn; [reflexivity | now rewrite IH]. Qed.

Lemma append_String_assoc (a b : string) (c : ascii) :
  a ++ String c b = (a ++ String c EmptyString) ++ b.
Proof. induction a as [| x a IH]; cbn; [reflexivity | now rewrite IH]. Qed.

Lemma substring_all (b : string) : substring 0 (String.length b) b = b.
Proof. induction b as [| c b IH]; cbn; [reflexivity | now rewrite IH]. Qed.

Lemma slice_from_append (a b : string) :
  slice_from (String.length a) (a ++ b) = b.
Proof.
  unfold slice_from. rewrite length_append.
  replace (String.length a + String.length b - String.length a)
    with (String.length b) by lia.
  induction a as [| c a IH]; cbn; [apply substring_all | exact IH].
Qed.

Lemma rfind_from_append (c : ascii) (a b : string) (i last : Z) :
  rfind_from c (a ++ b) i last
  = rfind_from c b (i + Z.of_nat (String.length a)) (rfind_from c a i last).
Proof.
  revert i last. induction a as [| x a IH]; intros i last; cbn [append rfind_from].
  - cbn. now rewrite Z.add_0_r.
  - rewrite IH. f_equal. cbn [String.length]. lia.
Qed.

Lemma rfind_from_absent (c : ascii) (b : string) (i last : Z) :
  contains c b = false -> rfind_from c b i last = last.
Proof.
  revert i. induction b as [| x b IH]; intros i H; cbn in *; [reflexivity|].
  apply orb_false_iff in H. destruct H as [Hx Hb].
  rewrite Hx. now apply IH.
Qed.

Lemma endswith_split (c : ascii) (a : string) :
  endswith c a = true -> exists a', a = a' ++ String c EmptyString.
Proof.
  induction a as [| x a IH]; cbn; [discriminate|].
  destruct a as [| y a].
  - intros H. apply Ascii.eqb_eq in H. subst x. now exists EmptyString.
  - intros H. destruct (IH H) as [a' Ha']. exists (String x a').
    cbn. now rewrite <- Ha'.
Qed.

Lemma basename_after_separator (a b : string) :
  contains posixpath.sep b = false ->
  posixpath.basename ((a ++ String posixpath.sep EmptyString) ++ b) = b.
Proof.
  intros Hb. unfold posixpath.basename, rfind.
  rewrite rfind_from_append, (rfind_from_absent _ _ _ _ Hb).
  rewrite rfind_from_append. cbn [rfind_from].
  rewrite Ascii.eqb_refl.
  replace (Z.to_nat (0 + Z.of_nat (String.length a) + 1))
    with (String.length (a ++ String posixpath.sep EmptyString)).
  - cbn zeta. apply slice_from_append.
  - rewrite length_append. cbn. lia.
Qed.

(** The round trip of [os.path.join] and [os.path.basename] on a name
    without a separator. *)
Lemma basename_join (a b : string) :
  contains posixpath.sep b = false ->
  posixpath.basename (posixpath.join a b) = b.
Proof.
  intros Hb. unfold posixpath.join.
  assert (Hstart : startswith posixpath.sep b = false).
  { destruct b as [| x b]; [reflexivity|]. cbn in *.
    now apply orb_false_iff in Hb. }
  rewrite Hstart.
  destruct (String.eqb a EmptyString) eqn:Hempty; cbn [orb].
  - apply String.eqb_eq in Hempty. subst a. cbn [append].
    unfold posixpath.basename, rfind.
    rewrite (rfind_from_absent _ _ _ _ Hb). cbn.
    unfold slice_from. rewrite Nat.sub_0_r. apply substring_all.
  - destruct (endswith posixpath.sep a) eqn:Hend.
    + destruct (endswith_split _ _ Hend) as [a' Ha']. subst a.
      now apply basename_after_separator.
    + rewrite append_String_assoc. now apply basename_after_separator.
Qed.

Lemma Forall2_map_eq {A B C : Type} (f : A -> C) (g : B -> C)
    (xs : list A) (ys : list B) :
  Forall2 (fun x y => g y = f x) xs ys -> map g ys = map f xs.
Proof. induction 1; cbn; [reflexivity | congruence]. Qed.

(** X12: on a host whose [os.path] is [posixpath], when no listed name
    contains a slash, the filenames of the collected results are exactly the
    recognized directory entries, in the order of the listing: joining a name
    to the input folder and taking the basename gives the name back. *)
Theorem reported_names_are_directory_entries (env : Env)
    (input_folder output_folder : string) (filenames : list string) st :
  (forall p, os_path_basename env p = posixpath.basename p) ->
  (forall a b, os_path_join env a b = posixpath.join a b) ->
  (forall filename,
      In filename filenames -> contains posixpath.sep filename = false) ->
  exists results st',
    map_M (remove_all_metadata env)
          (tasks_of env input_folder output_folder filenames) st
      = (Ret results, st')
    /\ map input_filename results
       = filter (fun filename =>
                   recognized env (posixpath.join input_folder filename))
                filenames.
Proof.
  intros Hbase Hjoin Hnames.
  destruct (pool_map_run env (tasks_of env input_folder output_folder filenames)
              st) as [results [st' [Hrun [Hall _]]]].
  exists results, st'. split; [exact Hrun|].
  rewrite (Forall2_map_eq (fun task => os_path_basename env (fst task))
             input_filename
             (tasks_of env input_folder output_folder filenames) results).
  - unfold tasks_of. rewrite map_map. cbn [fst].
    clear Hrun Hall.
    induction filenames as [| filename rest IH]; cbn [filter map];
      [reflexivity|].
    rewrite Hjoin.
    destruct (recognized env (posixpath.join input_folder filename)); cbn [map].
    + rewrite Hbase, Hjoin, basename_join by (apply Hnames; now left).
      f_equal. apply IH. intros f Hf. apply Hnames. now right.
    + apply IH. intros f Hf. apply Hnames. now right.
  - eapply Forall2_impl; [|exact Hall]. cbn beta. intros task r [H _]. exact H.
Qed.

Lemma reported_names_are_directory_entries_witness :
  exists results st',
    map_M (remove_all_metadata Demo.healthy)
          (tasks_of Demo.healthy "input" "output" Demo.listing) initial_state
      = (Ret results, st')
    /\ map input_filename results = ["cat.png"; "dog.jpg"].
Proof.
  destruct (reported_names_are_directory_entries Demo.healthy "input" "output"
              Demo.listing initial_state) as [results [st' [Hrun Hnames]]].
  - reflexivity.
  - reflexivity.
  - intros filename Hin. cbn in Hin.
    destruct Hin as [H | [H | [H | [H | [H | [H | []]]]]]]; subst filename;
      reflexivity.
  - exists results, st'. split; [exact Hrun | exact Hnames].
Defined.

(** ** The enumeration, call by call *)

Lemma collect_image_files_calls (env : Env) (input_folder output_folder : string)
    (filenames : list string) (image_files : list Task) st :
  collect_image_files env input_folder output_folder filenames image_files st
  = (Ret (image_files ++ tasks_of env input_folder output_folder filenames)%list,
     after_calls st
       (flat_map
          (fun filename =>
             let input_path := os_path_join env input_folder filename in
             if os_path_isfile env input_path
             then [call_os_path_isfile input_path; call_imghdr_what input_path]
             else [call_os_path_isfile input_path])
          filenames)).
Proof.
  revert image_files st.
  induction filenames as [| filename rest IH]; intros image_files st;
    cbn [collect_image_files flat_map].
  - unfold tasks_of, ret, after_calls; cbn. rewrite !app_nil_r.
    now destruct st.
  - unfold bind at 1. rewrite call_run. cbn [negb].
    unfold tasks_of, recognized. cbn [filter map].
    fold (recognized env (os_path_join env input_folder filename)).
    lazy zeta.
    set (input_path := os_path_join env input_folder filename).
    unfold recognized at 1. fold input_path.
    destruct (os_path_isfile env input_path) eqn:Hfile; cbn [negb andb].
    + unfold bind at 1. rewrite try_except_call_first. lazy zeta.
      fold (after_calls (after_calls st [call_os_path_isfile input_path])
                        [call_imghdr_what input_path]).
      rewrite after_calls_app.
      destruct (imghdr_what env input_path) as [image_type | e].
      * unfold try_except, bind.
        destruct (truthy image_type); cbn [ret].
        -- rewrite IH, after_calls_app.
           fold (tasks_of env input_folder output_folder rest).
           f_equal. f_equal. cbn [map app]. list_assoc.
        -- rewrite IH, after_calls_app.
           fold (tasks_of env input_folder output_folder rest).
           reflexivity.
      * unfold except_Exception, ret.
        rewrite IH, after_calls_app.
        fold (tasks_of env input_folder output_folder rest).
        reflexivity.
    + rewrite IH, after_calls_app.
      fold (tasks_of env input_folder output_folder rest).
      reflexivity.
Qed.

(** X13: the enumeration examines every listed entry once, in the order of
    the listing: one [os.path.isfile] per entry and one [imghdr.what] per
    regular file, never on an entry that is not a regular file; it draws no
    random value and prints nothing. *)
Theorem enumeration_examines_each_entry_once (env : Env)
    (input_folder output_folder : string) (filenames : list string) st :
  collect_image_files env input_folder output_folder filenames [] st
  = (Ret (tasks_of env input_folder output_folder filenames),
     mkState (rng_pos st)
       (calls st
        ++ flat_map
             (fun filename =>
                let input_path := os_path_join env input_folder filename in
                if os_path_isfile env input_path
                then [call_os_path_isfile input_path;
                      call_imghdr_what input_path]
                else [call_os_path_isfile input_path])
             filenames)
       (stdout st)).
Proof. exact (collect_image_files_calls env _ _ filenames [] st). Qed.

(** ** The steps after the save, at the path that was drawn *)

(** The run of [remove_all_metadata] once the output filename is known. *)
Lemma remove_all_metadata_named_run (env : Env)
    (input_path output_folder : string) (image_type : option string) st
    (filename : string) st1 :
  imghdr_what env input_path = Ret image_type ->
  truthy image_type = true ->
  output_filename env image_type (after_calls st [call_imghdr_what input_path])
    = (Ret filename, st1) ->
  st1 = mkState (rng_pos st + 20) (calls st ++ [call_imghdr_what input_path])
                (stdout st)
  /\ remove_all_metadata env (input_path, output_folder) st
     = let output_path := os_path_join env output_folder filename in
       let reported := os_path_basename env input_path in
       match copy_pixels env input_path output_path st1 with
       | (Raise e, st2) => (Ret (false, reported, Some (exc_str e)), st2)
       | (Ret _, st2) =>
           match scrub_file env image_type output_path st2 with
           | (Raise e, st3) => (Ret (false, reported, Some (exc_str e)), st3)
           | (Ret _, st3) => (Ret (true, reported, None), st3)
           end
       end.
Proof.
  intros Hwhat Htruthy Hname. split.
  - destruct (random_string_run env 20
                (after_calls st [call_imghdr_what input_path]))
      as [name [Hrun _]].
    unfold output_filename in Hname.
    rewrite (bind_Ret _ _ _ _ _ Hrun) in Hname.
    unfold ret in Hname. injection Hname as _ Hst. subst st1. reflexivity.
  - unfold remove_all_metadata, try_except, remove_all_metadata_try.
    unfold bind at 1. rewrite call_run, Hwhat, Htruthy. cbn [negb].
    rewrite (bind_Ret _ _ _ _ _ Hname). lazy zeta.
    unfold bind, ret, except_Exception.
    destruct (copy_pixels env input_path _ st1) as [[u | e] st2]; [|reflexivity].
    destruct (scrub_file env image_type _ st2) as [[u' | e] st3]; reflexivity.
Qed.

(** X8: when [save] raises on the path made of the output folder and the
    drawn filename, the result is a failure with the text of that error; the
    input file is closed and none of the clean-up steps is run on the path
    that could not be written. *)
Theorem save_failure_skips_cleanup (env : Env)
    (input_path output_folder : string) (image_type : option string) st
    (filename : string) st1 img data e :
  imghdr_what env input_path = Ret image_type ->
  truthy image_type = true ->
  output_filename env image_type (after_calls st [call_imghdr_what input_path])
    = (Ret filename, st1) ->
  decodes env input_path img data ->
  Image_save env (rebuilt img data) (os_path_join env output_folder filename)
    = Raise e ->
  remove_all_metadata env (input_path, output_folder) st
  = (Ret (false, os_path_basename env input_path, Some (exc_str e)),
     mkState (rng_pos st + 20)
       (calls st
        ++ [call_imghdr_what input_path;
            call_Image_open input_path;
            call_Image_getdata input_path;
            call_Image_new (mode (header img)) (size (header img));
            call_Image_putdata data;
            call_Image_save (rebuilt img data)
                            (os_path_join env output_folder filename);
            call_Image_close input_path])
       (stdout st)).
Proof.
  intros Hwhat Htruthy Hname Hdecodes Hsave.
  destruct (remove_all_metadata_named_run env input_path output_folder
              image_type st filename st1 Hwhat Htruthy Hname) as [Hst Hrun].
  rewrite Hrun. lazy zeta.
  rewrite (copy_pixels_decoded _ _ _ _ _ _ Hdecodes), Hsave.
  subst st1. f_equal. calls_done.
Qed.

Lemma save_failure_skips_cleanup_witness :
  remove_all_metadata Demo.out_of_memory ("input/dog.jpg", "output")
                      initial_state
  = (Ret (false, "dog.jpg", Some EmptyString),
     mkState 20
       [call_imghdr_what "input/dog.jpg";
        call_Image_open "input/dog.jpg";
        call_Image_getdata "input/dog.jpg";
        call_Image_new "RGB" (2, 1);
        call_Image_putdata [[255; 0; 0]; [0; 0; 255]]%Z;
        call_Image_save (rebuilt Demo.picture [[255; 0; 0]; [0; 0; 255]]%Z)
                        "output/aiqzHQY7fowFNW4dluCL.jpeg";
        call_Image_close "input/dog.jpg"]
       []).
Proof.
  apply (save_failure_skips_cleanup Demo.out_of_memory "input/dog.jpg"
           "output" (Some "jpeg") initial_state "aiqzHQY7fowFNW4dluCL.jpeg"
           (mkState 20 [call_imghdr_what "input/dog.jpg"] [])
           Demo.picture [[255; 0; 0]; [0; 0; 255]]%Z
           (mkExc MemoryError EmptyString)).
  - reflexivity.
  - reflexivity.
  - vm_compute. reflexivity.
  - split; [reflexivity|]. split; [reflexivity|].
    exists (repeat [0; 0; 0]%Z 2), tt. split; reflexivity.
  - reflexivity.
Defined.

(** X9: once the image is saved at the drawn path, whatever
    [piexif.remove] and [os.utime] return or raise, and when the [xattr]
    command returns or raises [CalledProcessError], the result is a success.
    The calls after the copy are [piexif.remove] for [jpg] and [jpeg], the
    [xattr] command on a POSIX host and on no other, and the timestamp reset
    last. *)
Theorem caught_cleanup_errors_keep_success (env : Env)
    (input_path output_folder : string) (image_type : option string) st
    (filename : string) st1 img data (u : unit) :
  imghdr_what env input_path = Ret image_type ->
  truthy image_type = true ->
  output_filename env image_type (after_calls st [call_imghdr_what input_path])
    = (Ret filename, st1) ->
  decodes env input_path img data ->
  Image_save env (rebuilt img data) (os_path_join env output_folder filename)
    = Ret u ->
  String.eqb (os_name env) "posix" = false
  \/ match subprocess_run env
             ["xattr"; "-c"; os_path_join env output_folder filename] with
     | Ret _ => True
     | Raise e => except_CalledProcessError e = true
     end ->
  let output_path := os_path_join env output_folder filename in
  remove_all_metadata env (input_path, output_folder) st
  = (Ret (true, os_path_basename env input_path, None),
     mkState (rng_pos st + 20)
       (calls st
        ++ [call_imghdr_what input_path;
            call_Image_open input_path;
            call_Image_getdata input_path;
            call_Image_new (mode (header img)) (size (header img));
            call_Image_putdata data;
            call_Image_save (rebuilt img data) output_path;
            call_Image_close input_path]
        ++ (if str_in (format_opt image_type) ["jpg"; "jpeg"]
            then [call_piexif_remove output_path] else [])
        ++ (if String.eqb (os_name env) "posix"
            then [call_subprocess_run ["xattr"; "-c"; output_path]] else [])
        ++ [call_os_utime output_path (0, 0)%Z])
       (stdout st)).
Proof.
  intros Hwhat Htruthy Hname Hdecodes Hsave Hxattr output_path.
  destruct (remove_all_metadata_named_run env input_path output_folder
              image_type st filename st1 Hwhat Htruthy Hname) as [Hst Hrun].
  rewrite Hrun. lazy zeta. fold output_path in Hsave, Hxattr |- *.
  rewrite (copy_pixels_decoded _ _ _ _ _ _ Hdecodes), Hsave.
  rewrite scrub_file_run. lazy zeta. subst st1.
  destruct (str_in (format_opt image_type) ["jpg"; "jpeg"]);
    destruct (String.eqb (os_name env) "posix");
    try destruct (subprocess_run env ["xattr"; "-c"; output_path]) as [u' | e];
    try (destruct Hxattr as [Hos | Hcaught];
         [discriminate Hos | try rewrite Hcaught]);
    f_equal; calls_done.
Qed.

Lemma caught_cleanup_errors_keep_success_witness :
  remove_all_metadata Faults.failing_cleanup ("input/dog.jpg", "output")
                      initial_state
  = (Ret (true, "dog.jpg", None),
     mkState 20
       [call_imghdr_what "input/dog.jpg";
        call_Image_open "input/dog.jpg";
        call_Image_getdata "input/dog.jpg";
        call_Image_new "RGB" (2, 1);
        call_Image_putdata [[255; 0; 0]; [0; 0; 255]]%Z;
        call_Image_save (rebuilt Demo.picture [[255; 0; 0]; [0; 0; 255]]%Z)
                        "output/aiqzHQY7fowFNW4dluCL.jpeg";
        call_Image_close "input/dog.jpg";
        call_piexif_remove "output/aiqzHQY7fowFNW4dluCL.jpeg";
        call_subprocess_run ["xattr"; "-c"; "output/aiqzHQY7fowFNW4dluCL.jpeg"];
        call_os_utime "output/aiqzHQY7fowFNW4dluCL.jpeg" (0, 0)%Z]
       [])
  /\ piexif_remove Faults.failing_cleanup "output/aiqzHQY7fowFNW4dluCL.jpeg"
     = Faults.os_error "piexif: given data is not jpeg"
  /\ os_utime Faults.failing_cleanup "output/aiqzHQY7fowFNW4dluCL.jpeg" (0, 0)%Z
     = Faults.os_error "[Errno 1] Operation not permitted".
Proof.
  split; [|split; reflexivity].
  apply (caught_cleanup_errors_keep_success Faults.failing_cleanup
           "input/dog.jpg" "output" (Some "jpeg") initial_state
           "aiqzHQY7fowFNW4dluCL.jpeg"
           (mkState 20 [call_imghdr_what "input/dog.jpg"] [])
           Demo.picture [[255; 0; 0]; [0; 0; 255]]%Z tt).
  - reflexivity.
  - reflexivity.
  - vm_compute. reflexivity.
  - split; [reflexivity|]. split; [reflexivity|].
    exists (repeat [0; 0; 0]%Z 2), tt. split; reflexivity.
  - reflexivity.
  - right. reflexivity.
Defined.

(** X10: on a POSIX host, when the image is saved at the drawn path and the
    [xattr] call on that path raises an exception that is not a
    [CalledProcessError], the result is a failure with the text of that
    exception; the [xattr] call is the last call of the run, so the
    timestamps of the written file are not reset. *)
Theorem uncaught_xattr_error_skips_utime (env : Env)
    (input_path output_folder : string) (image_type : option string) st
    (filename : string) st1 img data (u : unit) e :
  imghdr_what env input_path = Ret image_type ->
  truthy image_type = true ->
  output_filename env image_type (after_calls st [call_imghdr_what input_path])
    = (Ret filename, st1) ->
  decodes env input_path img data ->
  Image_save env (rebuilt img data) (os_path_join env output_folder filename)
    = Ret u ->
  String.eqb (os_name env) "posix" = true ->
  subprocess_run env ["xattr"; "-c"; os_path_join env output_folder filename]
    = Raise e ->
  except_CalledProcessError e = false ->
  let output_path := os_path_join env output_folder filename in
  remove_all_metadata env (input_path, output_folder) st
  = (Ret (false, os_path_basename env input_path, Some (exc_str e)),
     mkState (rng_pos st + 20)
       (calls st
        ++ [call_imghdr_what input_path;
            call_Image_open input_path;
            call_Image_getdata input_path;
            call_Image_new (mode (header img)) (size (header img));
            call_Image_putdata data;
            call_Image_save (rebuilt img data) output_path;
            call_Image_close input_path]
        ++ (if str_in (format_opt image_type) ["jpg"; "jpeg"]
            then [call_piexif_remove output_path] else [])
        ++ [call_subprocess_run ["xattr"; "-c"; output_path]])
       (stdout st)).
Proof.
  intros Hwhat Htruthy Hname Hdecodes Hsave Hos Hxattr Hclass output_path.
  destruct (remove_all_metadata_named_run env input_path output_folder
              image_type st filename st1 Hwhat Htruthy Hname) as [Hst Hrun].
  rewrite Hrun. lazy zeta. fold output_path in Hsave, Hxattr |- *.
  rewrite (copy_pixels_decoded _ _ _ _ _ _ Hdecodes), Hsave.
  rewrite scrub_file_run. lazy zeta. rewrite Hos, Hxattr, Hclass. subst st1.
  destruct (str_in (format_opt image_type) ["jpg"; "jpeg"]);
    f_equal; calls_done.
Qed.

Lemma uncaught_xattr_error_skips_utime_witness :
  remove_all_metadata Demo.without_xattr ("input/dog.jpg", "output")
                      initial_state
  = (Ret (false, "dog.jpg",
          Some "[Errno 2] No such file or directory: 'xattr'"),
     mkState 20
       [call_imghdr_what "input/dog.jpg";
        call_Image_open "input/dog.jpg";
        call_Image_getdata "input/dog.jpg";
        call_Image_new "RGB" (2, 1);
        call_Image_putdata [[255; 0; 0]; [0; 0; 255]]%Z;
        call_Image_save (rebuilt Demo.picture [[255; 0; 0]; [0; 0; 255]]%Z)
                        "output/aiqzHQY7fowFNW4dluCL.jpeg";
        call_Image_close "input/dog.jpg";
        call_piexif_remove "output/aiqzHQY7fowFNW4dluCL.jpeg";
        call_subprocess_run ["xattr"; "-c"; "output/aiqzHQY7fowFNW4dluCL.jpeg"]]
       []).
Proof.
  apply (uncaught_xattr_error_skips_utime Demo.without_xattr "input/dog.jpg"
           "output" (Some "jpeg") initial_state "aiqzHQY7fowFNW4dluCL.jpeg"
           (mkState 20 [call_imghdr_what "input/dog.jpg"] [])
           Demo.picture [[255; 0; 0]; [0; 0; 255]]%Z tt
           (mkExc FileNotFoundError
                  "[Errno 2] No such file or directory: 'xattr'")).
  - reflexivity.
  - reflexivity.
  - vm_compute. reflexivity.
  - split; [reflexivity|]. split; [reflexivity|].
    exists (repeat [0; 0; 0]%Z 2), tt. split; reflexivity.
  - reflexivity.
  - reflexivity.
  - reflexivity.
  - reflexivity.
Defined.

(** ** The pool step, task by task *)

Lemma map_M_each_task_once (env : Env) (tasks : list Task)
    (results : list TaskResult) st st' :
  map_M (remove_all_metadata env) tasks st = (Ret results, st') ->
  each_task_once env tasks results st st'.
Proof.
  revert results st. induction tasks as [| task rest IH]; intros results st Hrun;
    cbn [map_M] in Hrun.
  - unfold ret in Hrun. injection Hrun as Hres Hst. subst results st'.
    reflexivity.
  - apply bind_Ret_inv in Hrun. destruct Hrun as [r [st1 [Hr Hrun]]].
    apply bind_Ret_inv in Hrun. destruct Hrun as [rs [st2 [Hrs Hrun]]].
    unfold ret in Hrun. injection Hrun as Hres Hst. subst results st2.
    cbn [each_task_once]. exists st1. split; [exact Hr|].
    apply IH. exact Hrs.
Qed.

(** The whole run of [process_folder] when there is a task and a processor:
    set-up, enumeration, one pool, the tasks, the end of the pool, the
    summary. *)
Lemma process_folder_trace (env : Env) (input_folder output_folder : string)
    (filenames : list string) (u : unit) st :
  os_makedirs env output_folder = Ret u ->
  os_listdir env input_folder = Ret filenames ->
  1 <= Nat.min (cpu_count env)
               (List.length (tasks_of env input_folder output_folder filenames)) ->
  let image_files := tasks_of env input_folder output_folder filenames in
  let st1 :=
    after_calls st
      (call_os_makedirs output_folder :: call_os_listdir input_folder
         :: probes_of env input_folder filenames
         ++ [call_cpu_count;
             call_Pool (Nat.min (cpu_count env) (List.length image_files))]) in
  exists results st2,
    map_M (remove_all_metadata env) image_files st1 = (Ret results, st2)
    /\ process_folder env input_folder output_folder st
       = print_summary results (after_calls st2 [call_Pool_terminate]).
Proof.
  intros Hmk Hls Hn image_files st1.
  destruct (pool_map_run env image_files st1) as [results [st2 [Hmap _]]].
  exists results, st2. split; [exact Hmap|].
  unfold process_folder.
  unfold bind at 1. rewrite call_run, Hmk.
  unfold bind at 1. rewrite call_run, Hls.
  unfold bind at 1. rewrite collect_image_files_calls. cbn [app].
  fold (probes_of env input_folder filenames). fold image_files.
  unfold bind at 1. rewrite call_run. lazy zeta.
  unfold bind at 1, with_ at 1, bind at 1, Pool. rewrite call_run.
  assert (Hlt : (Nat.min (cpu_count env) (List.length image_files) <? 1)%nat
                = false) by (apply Nat.ltb_ge; exact Hn).
  rewrite Hlt.
  match goal with
  | |- context [map_M _ _ ?s] =>
      replace s with st1
        by (subst st1; unfold after_calls; cbn [rng_pos calls stdout];
            f_equal; list_assoc)
  end.
  rewrite Hmap. unfold bind at 1. rewrite call_run. reflexivity.
Qed.

(** C9: when the task list is not empty (and the host has a processor), the
    run of [process_folder] is fixed from end to end.  After the set-up, the
    enumeration and the start of the one pool, [remove_all_metadata] is
    invoked once on each task, on nothing else and never again; [results]
    holds one result per task, the i-th being the result of the i-th task;
    the workers classify each task's input once; then the pool is ended and
    the summary of exactly these results is printed, with the number of
    tasks as the total.  (The calls of the workers are recorded in the order
    of the task list, the order in which [pool.map] returns the results.) *)
Theorem one_result_per_task_in_order (env : Env)
    (input_folder output_folder : string) (filenames : list string)
    (u : unit) st :
  os_makedirs env output_folder = Ret u ->
  os_listdir env input_folder = Ret filenames ->
  tasks_of env input_folder output_folder filenames <> [] ->
  1 <= cpu_count env ->
  let image_files := tasks_of env input_folder output_folder filenames in
  let st1 :=
    mkState (rng_pos st)
      (calls st
       ++ call_os_makedirs output_folder :: call_os_listdir input_folder
       :: probes_of env input_folder filenames
       ++ [call_cpu_count;
           call_Pool (Nat.min (cpu_count env) (List.length image_files))])
      (stdout st) in
  exists results st2 worker_calls,
    map_M (remove_all_metadata env) image_files st1 = (Ret results, st2)
    /\ each_task_once env image_files results st1 st2
    /\ Forall2 (fun task r =>
                  input_filename r = os_path_basename env (fst task)
                  /\ exists s s', remove_all_metadata env task s = (Ret r, s'))
               image_files results
    /\ List.length results = List.length image_files
    /\ calls st2 = (calls st1 ++ worker_calls)%list
    /\ filter is_classification worker_calls
       = map (fun task => call_imghdr_what (fst task)) image_files
    /\ forallb not_pool_start worker_calls = true
    /\ stdout st2 = stdout st
    /\ process_folder env input_folder output_folder st
       = (Ret tt,
          mkState (rng_pos st2) (calls st2 ++ [call_Pool_terminate])
            (stdout st
             ++ [(newline ++ "Processing Summary:")%string;
                 ("Total images processed: "
                    ++ format_nat (List.length image_files))%string;
                 ("Successful: "
                    ++ format_nat
                         (List.length
                            (filter (fun r => success r) results)))%string;
                 ("Failed: "
                    ++ format_nat
                         (List.length
                            (filter (fun r => negb (success r))
                                    results)))%string]
             ++ match filter (fun r => negb (success r)) results with
                | [] => []
                | failed =>
                    (newline ++ "Failed Files:")%string
                      :: map failure_line failed
                end)).
Proof.
  intros Hmk Hls Hne Hcpu image_files st1.
  assert (Hn : 1 <= Nat.min (cpu_count env) (List.length image_files)).
  { apply Nat.min_glb; [exact Hcpu|]. subst image_files.
    destruct (tasks_of env input_folder output_folder filenames);
      [contradiction | cbn; lia]. }
  destruct (process_folder_trace env input_folder output_folder filenames u st
              Hmk Hls Hn) as [results [st2 [Hmap Hrun]]].
  lazy zeta in Hmap. fold image_files in Hmap.
  change (after_calls st
            (call_os_makedirs output_folder :: call_os_listdir input_folder
               :: probes_of env input_folder filenames
               ++ [call_cpu_count;
                   call_Pool (Nat.min (cpu_count env)
                                      (List.length image_files))]))
    with st1 in Hmap.
  destruct (pool_map_run env image_files st1)
    as [results' [st2' [Hmap' [Hall [Hout [new [Hcalls [Hclass Hpool]]]]]]]].
  rewrite Hmap in Hmap'. injection Hmap' as Hres Hst. subst results' st2'.
  assert (Hlen : List.length image_files = List.length results)
    by exact (Forall2_length Hall).
  exists results, st2, new.
  split; [exact Hmap|].
  split; [exact (map_M_each_task_once _ _ _ _ _ Hmap)|].
  split; [exact Hall|]. split; [symmetry; exact Hlen|].
  split; [exact Hcalls|]. split; [exact Hclass|]. split; [exact Hpool|].
  split; [rewrite Hout; reflexivity|].
  rewrite Hrun, print_summary_run. unfold after_calls.
  cbn [rng_pos calls stdout]. rewrite Hout, Hlen. reflexivity.
Qed.

Lemma one_result_per_task_in_order_witness :
  exists results st2,
    each_task_once Demo.healthy
      [("input/cat.png", "output"); ("input/dog.jpg", "output")]
      results
      (mkState 0
         [call_os_makedirs "output"; call_os_listdir "input";
          call_os_path_isfile "input/cat.png"; call_imghdr_what "input/cat.png";
          call_os_path_isfile "input/sub";
          call_os_path_isfile "input/notes.txt";
          call_imghdr_what "input/notes.txt";
          call_os_path_isfile "input/dog.jpg"; call_imghdr_what "input/dog.jpg";
          call_os_path_isfile "input/locked.png";
          call_imghdr_what "input/locked.png";
          call_os_path_isfile "input/empty.bin";
          call_imghdr_what "input/empty.bin";
          call_cpu_count; call_Pool 2]
         [])
      st2
    /\ List.length results = 2
    /\ fst (process_folder Demo.healthy "input" "output" initial_state) = Ret tt
    /\ calls (snd (process_folder Demo.healthy "input" "output" initial_state))
       = (calls st2 ++ [call_Pool_terminate])%list.
Proof.
  destruct (one_result_per_task_in_order Demo.healthy "input" "output"
              Demo.listing tt initial_state eq_refl eq_refl)
    as [results [st2 [worker_calls
        [_ [Honce [_ [Hlen [_ [_ [_ [_ Hrun]]]]]]]]]]].
  - discriminate.
  - cbn. lia.
  - exists results, st2. split; [exact Honce|]. split; [exact Hlen|].
    rewrite Hrun. split; reflexivity.
Defined.
